(** * Proxy-aware network transport selection (shared/net)

    A shallow embedding of the TypeScript module that exports [fetch],
    [mockFetchForTesting] and [getAxiosSettings], and the properties of its
    transport selection, its test override hook and its axios settings.

    The module is modelled in a state and exception monad over its two
    module variables ([mockFetch], [configuredDispatcher]) and a trace of
    what it does to the outside: console output, assignments to [mockFetch]
    and calls of fetch functions.  [process.env] is an argument, and so are
    the constructors the module calls ([new URL], [new ProxyAgent],
    [new EnvHttpProxyAgent]), each of which returns an object or throws.
    Locals that a [try] block assigns live in a frame next to the state.  The function
    values that are only ever called (the host's fetch, undici's fetch,
    replacements given by tests) are names, and calling one is an event.
    The process is standalone when [process.env.IS_STANDALONE] is truthy, and
    embedded in the host otherwise.

    Two users of the module's conventions follow: [getIdeRedirectUri], and
    [getAihubmixModels], which hands [getAxiosSettings()] to axios and turns
    the answer into a map of model descriptions. *)

From Stdlib Require Import String Ascii List Bool Arith Lia Floats.
From stdpp Require Import base option gmap strings pretty.

Import ListNotations.
Local Open Scope string_scope.

(** ** JavaScript values the module handles *)

(** [process.env]: a property is a string, or [undefined] when unset. *)
Abbreviation Env := (gmap string string).

(** Truthiness of a [string | undefined] value: defined and not empty. *)
Definition truthy (v : option string) : bool :=
  match v with
  | Some (String _ _) => true
  | _ => false
  end.

(** [a || b] on [string | undefined] values. *)
Definition js_or (a b : option string) : option string :=
  if truthy a then a else b.

Infix "|||" := js_or (at level 50, left associativity).

(** [s.replace(pat, rep)] with a string pattern: the first occurrence only. *)
Fixpoint str_replace (pat rep s : string) : string :=
  if String.prefix pat s
  then rep ++ String.substring (String.length pat) (String.length s - String.length pat) s
  else match s with
       | EmptyString => EmptyString
       | String c s' => String c (str_replace pat rep s')
       end.

(** A thrown value. *)
Inductive Error : Type :=
| JsError (name message : string).

(** The two properties of a [URL] object that the module reads. *)
Record URL : Type := mkURL { protocol : string; host : string }.

(** The dispatchers of undici that the module constructs.  A [ProxyAgent] is
    built from the option [uri].  An [EnvHttpProxyAgent] is built without
    options and configures itself from [process.env]: it holds the proxy for
    http requests, the proxy for https requests and the list of hosts to reach
    without proxy, as it found them there. *)
Inductive Dispatcher : Type :=
| ProxyAgent (uri : string)
| EnvHttpProxyAgent (httpProxy httpsProxy : option string) (noProxy : string).

(** The function values of type [typeof globalThis.fetch] that occur. *)
Inductive fn : Type :=
| globalThis_fetch              (* the host-provided global fetch *)
| undiciFetch                   (* [fetch] imported from undici *)
| dispatcherFetch               (* the arrow function assigned to [baseFetch]
                                   next to a dispatcher (lines 143 and 152) *)
| userFetch (id : nat).         (* a replacement handed to [mockFetchForTesting] *)

(** Property values of the option objects built by the module. *)
Inductive JsVal : Type :=
| VString (s : string)
| VDispatcher (d : option Dispatcher)   (* [configuredDispatcher], maybe undefined *)
| VExportedFetch.                       (* the exported [fetch] itself *)

(** An option object ([RequestInit], or the axios configuration). *)
Abbreviation JsObject := (gmap string JsVal).

(** The request target: [string | URL | Request], kept by its text. *)
Definition RequestInfo : Type := string.

(** What the process does that can be observed from outside the module
    variables, in order. *)
Inductive Event : Type :=
| console_log (message : string)
| console_warn (message : string) (detail : option Error)
| assign_mockFetch (v : option fn)
| call (f : fn) (input : RequestInfo) (init : option JsObject).

(** The promise a call to a fetch function returns, named by the call. *)
Inductive Response : Type :=
| returned_by (f : fn) (input : RequestInfo) (init : option JsObject).

(** ** Module state *)

Record State : Type := mkState {
  mockFetch : option fn;                       (* [let mockFetch] *)
  configuredDispatcher : option Dispatcher;    (* [let configuredDispatcher] *)
  trace : list Event
}.

(** The state when the module starts loading. *)
Definition module_start : State :=
  {| mockFetch := None; configuredDispatcher := None; trace := [] |}.

(** ** Effects: state and exceptions *)

Inductive completion (A : Type) : Type :=
| Normal (a : A)
| Throw (e : Error).
Arguments Normal {A} a.
Arguments Throw {A} e.

#[export] Instance completion_ret : MRet completion := fun A a => Normal a.
#[export] Instance completion_bind : MBind completion :=
  fun A B k c => match c with
                 | Normal a => k a
                 | Throw e => Throw e
                 end.

Definition Eff (S A : Type) : Type := S -> completion A * S.

Module Eff.
Definition ret {S A} (a : A) : Eff S A := fun s => (Normal a, s).

Definition bind {S A B} (m : Eff S A) (k : A -> Eff S B) : Eff S B :=
  fun s => match m s with
           | (Normal a, s') => k a s'
           | (Throw e, s') => (Throw e, s')
           end.

Definition throw {S A} (e : Error) : Eff S A := fun s => (Throw e, s).

Definition of_completion {S A} (c : completion A) : Eff S A := fun s => (c, s).

Definition get {S} : Eff S S := fun s => (Normal s, s).

Definition modify {S} (f : S -> S) : Eff S unit := fun s => (Normal tt, f s).

(** [try { body } catch (error) { handler }] *)
Definition try_catch {S A} (body : Eff S A) (handler : Error -> Eff S A) : Eff S A :=
  fun s => match body s with
           | (Normal a, s') => (Normal a, s')
           | (Throw e, s') => handler e s'
           end.

(** [try { body } finally { cleanup }]: the cleanup runs on both exits and
    its own throw replaces the pending completion. *)
Definition try_finally {S A} (body : Eff S A) (cleanup : Eff S unit) : Eff S A :=
  fun s => match body s with
           | (r, s') => match cleanup s' with
                        | (Normal _, s'') => (r, s'')
                        | (Throw e, s'') => (Throw e, s'')
                        end
           end.

(** Run module-level code inside a function body that has locals [L]. *)
Definition lift {S L A} (m : Eff S A) : Eff (S * L) A :=
  fun '(s, l) => match m s with (r, s') => (r, (s', l)) end.

(** A function body with locals initialised to [l0]. *)
Definition with_locals {S L A} (l0 : L) (body : Eff (S * L) A) : Eff S A :=
  fun s => match body (s, l0) with (r, (s', _)) => (r, s') end.

Definition get_local {S L} : Eff (S * L) L := fun '(s, l) => (Normal l, (s, l)).

Definition set_local {S L} (f : L -> L) : Eff (S * L) unit :=
  fun '(s, l) => (Normal tt, (s, f l)).
End Eff.

#[export] Instance Eff_ret {S} : MRet (Eff S) := fun A => @Eff.ret S A.
#[export] Instance Eff_bind {S} : MBind (Eff S) := fun A B k m => @Eff.bind S A B m k.

Abbreviation M := (Eff State).

(** ** Primitive operations on the module state *)

Definition log_event (e : Event) (st : State) : State :=
  {| mockFetch := mockFetch st;
     configuredDispatcher := configuredDispatcher st;
     trace := trace st ++ [e] |}.

(** [mockFetch = v]; the assignment is recorded in the trace. *)
Definition set_mockFetch (v : option fn) (st : State) : State :=
  {| mockFetch := v;
     configuredDispatcher := configuredDispatcher st;
     trace := trace st ++ [assign_mockFetch v] |}.

(** [configuredDispatcher = d] *)
Definition set_configuredDispatcher (d : Dispatcher) (st : State) : State :=
  {| mockFetch := mockFetch st;
     configuredDispatcher := Some d;
     trace := trace st |}.

Definition emit (e : Event) : M unit := Eff.modify (log_event e).

Definition read_mockFetch : M (option fn) :=
  st ← Eff.get; mret (mockFetch st).

Definition write_mockFetch (v : option fn) : M unit := Eff.modify (set_mockFetch v).

Definition read_configuredDispatcher : M (option Dispatcher) :=
  st ← Eff.get; mret (configuredDispatcher st).

Definition write_configuredDispatcher (d : Dispatcher) : M unit :=
  Eff.modify (set_configuredDispatcher d).

(** ** The platform's [URL] constructor

    [new URL(s)] follows the WHATWG URL Standard.  The module only reads
    [protocol] and [host] and only depends on whether the constructor throws,
    so the functions below take the constructor as an argument.  [WHATWG.parse]
    is the instance used to run them: the basic URL parser without a base URL,
    up to the end of the authority, on the UTF-8 text of the string.  The host
    of a special scheme is percent-decoded, checked for forbidden code points
    and, when it ends in a number, parsed as an IPv4 address; a host in square
    brackets is parsed as an IPv6 address; the host of any other scheme is
    opaque.  Domain names are ASCII names as they stand: domains with
    non-ASCII characters and Punycode labels ([xn--]) are outside this
    instance. *)
Module WHATWG.
Definition code (c : ascii) : nat := nat_of_ascii c.

Definition between (lo hi : nat) (c : ascii) : bool :=
  Nat.leb lo (code c) && Nat.leb (code c) hi.

Definition is_upper := between 65 90.
Definition is_lower := between 97 122.
Definition is_digit := between 48 57.
Definition is_alpha (c : ascii) : bool := is_upper c || is_lower c.
Definition is_alnum (c : ascii) : bool := is_alpha c || is_digit c.

Definition to_lower (c : ascii) : ascii :=
  if is_upper c then ascii_of_nat (code c + 32) else c.

Definition is_c0_or_space (c : ascii) : bool := Nat.leb (code c) 32.

Definition is_tab_or_newline (c : ascii) : bool :=
  Nat.eqb (code c) 9 || Nat.eqb (code c) 10 || Nat.eqb (code c) 13.

Definition one_of (cs : string) (c : ascii) : bool :=
  existsb (Ascii.eqb c) (list_ascii_of_string cs).

Fixpoint drop_while (p : ascii -> bool) (s : list ascii) : list ascii :=
  match s with
  | c :: s' => if p c then drop_while p s' else s
  | [] => []
  end.

Fixpoint take_until (p : ascii -> bool) (s : list ascii) : list ascii :=
  match s with
  | c :: s' => if p c then [] else c :: take_until p s'
  | [] => []
  end.

(** Leading and trailing C0 controls and spaces are stripped, then every
    tab and newline is removed. *)
Definition clean (s : string) : list ascii :=
  let l := drop_while is_c0_or_space (list_ascii_of_string s) in
  let l := rev (drop_while is_c0_or_space (rev l)) in
  List.filter (fun c => negb (is_tab_or_newline c)) l.

(** Scheme state: letters, digits, [+], [-] and [.] up to the first [:]. *)
Fixpoint scheme_state (acc s : list ascii) : option (list ascii * list ascii) :=
  match s with
  | [] => None
  | c :: rest =>
      if Ascii.eqb c ":" then Some (rev acc, rest)
      else if is_alnum c || one_of "+-." c then scheme_state (to_lower c :: acc) rest
      else None
  end.

(** Scheme start state: the first character is a letter. *)
Definition scheme_start_state (s : list ascii) : option (list ascii * list ascii) :=
  match s with
  | c :: rest => if is_alpha c then scheme_state [to_lower c] rest else None
  | [] => None
  end.

Definition default_port (scheme : string) : option N :=
  if String.eqb scheme "http" then Some 80%N
  else if String.eqb scheme "https" then Some 443%N
  else if String.eqb scheme "ws" then Some 80%N
  else if String.eqb scheme "wss" then Some 443%N
  else if String.eqb scheme "ftp" then Some 21%N
  else None.

Definition is_special (scheme : string) : bool :=
  match default_port scheme with
  | Some _ => true
  | None => String.eqb scheme "file"
  end.

(** The text after the last [@] (the credentials come before it). *)
Fixpoint after_last_at (s : list ascii) : list ascii * bool :=
  match s with
  | [] => ([], false)
  | c :: rest =>
      match after_last_at rest with
      | (r, true) => (r, true)
      | (r, false) => if Ascii.eqb c "@" then (rest, true) else (c :: r, false)
      end
  end.

(** Split [host:port] at the first [:] outside square brackets. *)
Fixpoint split_port (inside : bool) (s : list ascii) : list ascii * option (list ascii) :=
  match s with
  | [] => ([], None)
  | c :: rest =>
      if Ascii.eqb c ":" && negb inside then ([], Some rest)
      else
        let inside' := if Ascii.eqb c "[" then true
                       else if Ascii.eqb c "]" then false else inside in
        match split_port inside' rest with
        | (h, p) => (c :: h, p)
        end
  end.

Definition digit_value (c : ascii) : N := N.of_nat (code c - 48).

(** Port state: decimal digits only, at most 65535. *)
Definition port_state (s : list ascii) : option (option N) :=
  if forallb is_digit s then
    match s with
    | [] => Some None
    | _ =>
        let n := fold_left (fun acc c => (acc * 10 + digit_value c)%N) s 0%N in
        if (n <=? 65535)%N then Some (Some n) else None
    end
  else None.

(** *** Numbers in hosts *)

Definition hex_value (c : ascii) : option N :=
  if is_digit c then Some (N.of_nat (code c - 48))
  else if between 65 70 c then Some (N.of_nat (code c - 55))
  else if between 97 102 c then Some (N.of_nat (code c - 87))
  else None.

Definition is_hex (c : ascii) : bool := bool_decide (is_Some (hex_value c)).

Definition hex_digit (lower : bool) (d : N) : ascii :=
  ascii_of_N (if (d <? 10)%N then 48 + d else (if lower then 87 else 55) + d)%N.

(** The digits of [n] in base 16, at most [fuel] of them. *)
Fixpoint hex_digits (fuel : nat) (lower : bool) (n : N) (acc : list ascii) : list ascii :=
  match fuel with
  | 0 => acc
  | S fuel' =>
      let acc' := hex_digit lower (n mod 16)%N :: acc in
      if (n / 16 =? 0)%N then acc' else hex_digits fuel' lower (n / 16)%N acc'
  end.

(** The number written by [digits] in base [radix], if they all are digits of
    that base. *)
Definition number_in (radix : N) (digits : list ascii) : option N :=
  fold_left (fun acc c =>
               a ← acc; d ← hex_value c;
               if (d <? radix)%N then Some (a * radix + d)%N else None)
            digits (Some 0%N).

(** Strictly split on a separator. *)
Fixpoint split_on (sep : ascii) (s : list ascii) : list (list ascii) :=
  match s with
  | [] => [[]]
  | c :: rest =>
      if Ascii.eqb c sep then [] :: split_on sep rest
      else match split_on sep rest with
           | part :: parts => (c :: part) :: parts
           | [] => [[c]]
           end
  end.

Fixpoint join (sep : list ascii) (parts : list (list ascii)) : list ascii :=
  match parts with
  | [] => []
  | [part] => part
  | part :: parts' => part ++ sep ++ join sep parts'
  end.

(** Percent-decoding: [%] followed by two hexadecimal digits is one byte. *)
Fixpoint percent_decode (s : list ascii) : list ascii :=
  match s with
  | [] => []
  | c :: rest =>
      if Ascii.eqb c "%" then
        match rest with
        | h :: l :: rest' =>
            match hex_value h, hex_value l with
            | Some a, Some b => ascii_of_N (16 * a + b)%N :: percent_decode rest'
            | _, _ => c :: percent_decode rest
            end
        | _ => c :: percent_decode rest
        end
      else c :: percent_decode rest
  end.

(** Percent-encoding of an opaque host: C0 controls and every byte above [~]. *)
Definition percent_encode_c0 (s : list ascii) : list ascii :=
  flat_map (fun c =>
              if Nat.ltb (code c) 32 || Nat.ltb 126 (code c)
              then ["%"%char; hex_digit false (N.of_nat (code c) / 16)%N;
                    hex_digit false (N.of_nat (code c) mod 16)%N]
              else [c]) s.

(** *** IPv4 addresses *)

(** IPv4 number parser: decimal, hexadecimal after [0x], octal after [0]. *)
Definition ipv4_number (part : list ascii) : option N :=
  match part with
  | [] => None
  | "0"%char :: x :: rest =>
      if Ascii.eqb x "x" || Ascii.eqb x "X" then number_in 16 rest
      else number_in 8 (x :: rest)
  | _ => number_in 10 part
  end.

(** The parts between dots, without one empty last part. *)
Definition ipv4_parts (h : list ascii) : list (list ascii) :=
  let parts := split_on "." h in
  match rev parts with
  | [] :: part :: parts' => rev (part :: parts')
  | _ => parts
  end.

Definition ends_in_number (h : list ascii) : bool :=
  match rev (split_on "." h) with
  | [[]] => false
  | [] :: last :: _ | last :: _ =>
      match last with
      | [] => false
      | _ => forallb is_digit last || bool_decide (is_Some (ipv4_number last))
      end
  | [] => false
  end.

Fixpoint ipv4_numbers (parts : list (list ascii)) : option (list N) :=
  match parts with
  | [] => Some []
  | part :: parts' =>
      n ← ipv4_number part; ns ← ipv4_numbers parts'; Some (n :: ns)
  end.

(** IPv4 parser: at most four numbers, the last one filling the bytes that
    the others leave. *)
Definition ipv4_parser (h : list ascii) : option N :=
  let parts := ipv4_parts h in
  if Nat.ltb 4 (length parts) then None
  else
    numbers ← ipv4_numbers parts;
    match rev numbers with
    | [] => None
    | last :: others =>
        if existsb (fun n => (255 <? n)%N) others then None
        else if (256 ^ (5 - N.of_nat (length numbers)) <=? last)%N then None
        else
          Some (fst (fold_left (fun '(ipv4, counter) n =>
                                  ((ipv4 + n * 256 ^ (3 - counter))%N, (counter + 1)%N))
                               (rev others) (last, 0%N)))
    end.

Definition ipv4_serializer (address : N) : string :=
  pretty (address / 256 ^ 3)%N ++ "." ++ pretty ((address / 256 ^ 2) mod 256)%N
  ++ "." ++ pretty ((address / 256) mod 256)%N ++ "." ++ pretty (address mod 256)%N.

(** *** IPv6 addresses *)

(** Up to [n] hexadecimal digits at the head, and the rest. *)
Fixpoint take_hex (n : nat) (s : list ascii) : list ascii * list ascii :=
  match n, s with
  | S n', c :: rest =>
      if is_hex c then let '(digits, rest') := take_hex n' rest in (c :: digits, rest')
      else ([], s)
  | _, _ => ([], s)
  end.

(** One number of the dotted part of an IPv6 address: decimal, at most 255,
    no leading zero. *)
Definition ipv4_piece (part : list ascii) : option N :=
  match part with
  | [] => None
  | "0"%char :: _ :: _ => None
  | _ =>
      if forallb is_digit part then
        n ← number_in 10 part;
        if (n <=? 255)%N then Some n else None
      else None
  end.

(** The dotted part that ends an IPv6 address: two pieces. *)
Definition ipv4_in_ipv6 (s : list ascii) : option (N * N) :=
  match List.map ipv4_piece (split_on "." s) with
  | [Some a; Some b; Some c; Some d] => Some ((a * 256 + b)%N, (c * 256 + d)%N)
  | _ => None
  end.

(** The main loop of the IPv6 parser.  [pieces] holds the pieces read so far,
    last first, with a zero in the place of [::]; [compress] is the number of
    pieces up to that place. *)
Fixpoint ipv6_loop (fuel : nat) (s : list ascii) (pieces : list N) (compress : option nat)
  : option (list N * option nat) :=
  match fuel, s with
  | _, [] => Some (pieces, compress)
  | 0, _ => None
  | S fuel', c :: rest =>
      if Nat.eqb (length pieces) 8 then None
      else if Ascii.eqb c ":" then
        match compress with
        | Some _ => None
        | None => ipv6_loop fuel' rest (0%N :: pieces) (Some (S (length pieces)))
        end
      else
        let '(digits, rest') := take_hex 4 s in
        match rest' with
        | [] =>
            value ← number_in 16 digits; Some (value :: pieces, compress)
        | c' :: rest'' =>
            if Ascii.eqb c' "." then
              match digits with
              | [] => None
              | _ =>
                  if Nat.ltb 6 (length pieces) then None
                  else '(p1, p2) ← ipv4_in_ipv6 s; Some (p2 :: p1 :: pieces, compress)
              end
            else if Ascii.eqb c' ":" then
              match digits, rest'' with
              | [], _ | _, [] => None
              | _, _ =>
                  value ← number_in 16 digits;
                  ipv6_loop fuel' rest'' (value :: pieces) compress
              end
            else None
        end
  end.

(** IPv6 parser: eight pieces. *)
Definition ipv6_parser (s : list ascii) : option (list N) :=
  '(pieces, compress) ←
    match s with
    | c :: rest =>
        if Ascii.eqb c ":" then
          match rest with
          | c' :: rest' =>
              if Ascii.eqb c' ":" then ipv6_loop (length s) rest' [0%N] (Some 1) else None
          | [] => None
          end
        else ipv6_loop (length s) s [] None
    | [] => None
    end;
  let pieces := rev pieces in
  match compress with
  | Some k =>
      Some (take k pieces ++ repeat 0%N (8 - length pieces) ++ drop k pieces)%list
  | None => if Nat.eqb (length pieces) 8 then Some pieces else None
  end.

Fixpoint zeros_at_head (l : list N) : nat :=
  match l with
  | 0%N :: rest => S (zeros_at_head rest)
  | _ => 0
  end.

(** The first longest run of two or more zero pieces: where it starts and
    how long it is. *)
Definition compress_at (address : list N) : option (nat * nat) :=
  fold_left (fun best i =>
               let n := zeros_at_head (drop i address) in
               match best with
               | Some (_, m) => if Nat.ltb m n then Some (i, n) else best
               | None => if Nat.leb 2 n then Some (i, n) else None
               end)
            (seq 0 8) None.

Definition ipv6_serializer (address : list N) : string :=
  let piece n := hex_digits 4 true n [] in
  let colons l := join [":"%char] (List.map piece l) in
  string_of_list_ascii
    match compress_at address with
    | Some (start, n) =>
        (colons (take start address) ++ [":"%char; ":"%char]
           ++ colons (drop (start + n) address))%list
    | None => colons address
    end.

(** *** Hosts *)

Definition forbidden_host : string := " #/:<>?@[\]^|".
Definition forbidden_domain : string := " #%/:<>?@[\]^|".

(** Host parser: an IPv6 address in square brackets; for a special scheme a
    lower-case domain or an IPv4 address; for any other scheme an opaque
    host. *)
Definition host_parser (special : bool) (h : list ascii) : option string :=
  match h with
  | "["%char :: inside =>
      match rev inside with
      | "]"%char :: address =>
          pieces ← ipv6_parser (rev address);
          Some ("[" ++ ipv6_serializer pieces ++ "]")
      | _ => None
      end
  | _ =>
      if special then
        let domain := List.map to_lower (percent_decode h) in
        match domain with
        | [] => None
        | _ =>
            if existsb (fun c => one_of forbidden_domain c || is_c0_or_space c
                                 || Nat.eqb (code c) 127) domain
            then None
            else if ends_in_number domain then ipv4_serializer <$> ipv4_parser domain
            else Some (string_of_list_ascii domain)
        end
      else
        if existsb (fun c => one_of forbidden_host c || Nat.eqb (code c) 0) h
        then None
        else Some (string_of_list_ascii (percent_encode_c0 h))
  end.

(** Authority and host states, on the text of the authority. *)
Definition authority (scheme : string) (a : list ascii) : option string :=
  let '(hostport, at_seen) := after_last_at a in
  match hostport with
  | [] => if at_seen || is_special scheme then None else Some ""
  | _ =>
      let '(h, p) := split_port false hostport in
      match h with
      | [] => None
      | _ =>
          h' ← host_parser (is_special scheme) h;
          match p with
          | None => Some h'
          | Some digits =>
              port ← port_state digits;
              match port with
              | None => Some h'
              | Some n =>
                  if decide (default_port scheme = Some n) then Some h'
                  else Some (h' ++ ":" ++ pretty n)
              end
          end
      end
  end.

Definition is_slash (special : bool) (c : ascii) : bool :=
  Ascii.eqb c "/" || (special && Ascii.eqb c "\").

(** A Windows drive letter: a letter and [:] or [|]. *)
Definition is_drive_letter (h : list ascii) : bool :=
  match h with
  | [c; d] => is_alpha c && one_of ":|" d
  | _ => false
  end.

(** The file host state: a drive letter is the start of the path, and the
    host [localhost] is the empty host. *)
Definition file_host (h : list ascii) : option string :=
  match h with
  | [] => Some ""
  | _ =>
      if is_drive_letter h then Some ""
      else
        h' ← host_parser true h;
        Some (if String.eqb h' "localhost" then "" else h')
  end.

(** The [host] property for the text that follows [scheme:]. *)
Definition host_of (scheme : string) (rest : list ascii) : option string :=
  let special := is_special scheme in
  let stop c := is_slash special c || one_of "?#" c in
  if String.eqb scheme "file" then
    match rest with
    | c1 :: c2 :: r =>
        if is_slash true c1 && is_slash true c2
        then file_host (take_until stop r)
        else Some ""
    | _ => Some ""
    end
  else if special then
    authority scheme (take_until stop (drop_while (is_slash true) rest))
  else
    match rest with
    | "/"%char :: "/"%char :: r => authority scheme (take_until stop r)
    | _ => Some ""
    end.

Definition invalid_URL : Error := JsError "TypeError" "Invalid URL".

Definition parse (s : string) : completion URL :=
  match scheme_start_state (clean s) with
  | None => Throw invalid_URL
  | Some (scheme, rest) =>
      let scheme := string_of_list_ascii scheme in
      match host_of scheme rest with
      | None => Throw invalid_URL
      | Some h => Normal {| protocol := scheme ++ ":"; host := h |}
      end
  end.
End WHATWG.

(** ** undici's dispatcher constructors

    [new ProxyAgent({ uri })] and [new EnvHttpProxyAgent()] run code of undici:
    they can throw, and an [EnvHttpProxyAgent] reads [process.env].  The module
    depends on them only through the dispatcher returned or the error thrown,
    so the functions below take both constructors as arguments.  [Undici] holds
    the instances used to run them, as far as the values read and the errors
    thrown go.  Releases of undici differ in the protocols a proxy URI may
    have: [http:] and [https:] in every release, [socks5:] and [socks:] in
    those with SOCKS5 support, [socks4:] in none. *)
Module Undici.
Definition InvalidArgumentError (message : string) : Error :=
  JsError "InvalidArgumentError" message.

Definition proxy_protocols (socks5_support : bool) : list string :=
  ["http:"; "https:"] ++ (if socks5_support then ["socks5:"; "socks:"] else []).

(** [new ProxyAgent({ uri })]: the URI goes through [new URL], and its
    protocol must be one the release handles. *)
Definition new_ProxyAgent (socks5_support : bool) (uri : string) : completion Dispatcher :=
  u ← WHATWG.parse uri;
  if bool_decide (protocol u ∈ proxy_protocols socks5_support) then Normal (ProxyAgent uri)
  else Throw (InvalidArgumentError
                "Invalid URL protocol: the URL must start with `http:` or `https:`.").

(** [a ?? b] on [string | undefined] values. *)
Definition nullish_or (a b : option string) : option string :=
  match a with
  | Some _ => a
  | None => b
  end.

(** [new EnvHttpProxyAgent()]: the agent takes [http_proxy ?? HTTP_PROXY] and
    [https_proxy ?? HTTPS_PROXY], builds a [ProxyAgent] on each one that is not
    empty, and takes [no_proxy ?? NO_PROXY ?? ""]. *)
Definition new_EnvHttpProxyAgent (socks5_support : bool) (env : Env)
  : completion Dispatcher :=
  let HTTP_PROXY := nullish_or (env !! "http_proxy") (env !! "HTTP_PROXY") in
  let HTTPS_PROXY := nullish_or (env !! "https_proxy") (env !! "HTTPS_PROXY") in
  match HTTP_PROXY with
  | Some (String _ _ as uri) => new_ProxyAgent socks5_support uri;; mret tt
  | _ => mret tt
  end;;
  match HTTPS_PROXY with
  | Some (String _ _ as uri) => new_ProxyAgent socks5_support uri;; mret tt
  | _ => mret tt
  end;;
  mret (EnvHttpProxyAgent HTTP_PROXY HTTPS_PROXY
          (default "" (nullish_or (env !! "no_proxy") (env !! "NO_PROXY")))).
End Undici.

(** ** Promises, as far as the override hook needs them *)

(** How a promise settles. *)
Inductive outcome (T : Type) : Type :=
| Fulfilled (v : T)
| Rejected (e : Error).
Arguments Fulfilled {T} v.
Arguments Rejected {T} e.

(** A promise is one the callback made, settled later by the event loop, or
    [p.finally(onFinally)]. *)
Inductive promise : Type :=
| made_by_callback (id : nat)
| finally_of (p : promise) (onFinally : M unit).

(** What a callback returns: [result instanceof Promise] or not. *)
Inductive value (T : Type) : Type :=
| Plain (v : T)
| APromise (p : promise).
Arguments Plain {T} v.
Arguments APromise {T} p.

(** The reactions that run when the promise made by the callback settles with
    [o], and how the derived promise settles: [finally] runs its handler and
    passes the outcome on, unless the handler throws. *)
Fixpoint settle {T} (p : promise) (o : outcome T) : M (outcome T) :=
  match p with
  | made_by_callback _ => mret o
  | finally_of q onFinally =>
      o' ← settle q o;
      Eff.try_catch (onFinally;; mret o') (fun e => mret (Rejected e))
  end.

(** ** The module *)

Section Net.
(** [new URL(s)]: the object, or the error thrown. *)
Variable new_URL : string -> completion URL.
(** [new ProxyAgent({ uri })]: the dispatcher, or the error thrown. *)
Variable new_ProxyAgent : string -> completion Dispatcher.
(** [new EnvHttpProxyAgent()], given [process.env]: the dispatcher, or the
    error thrown. *)
Variable new_EnvHttpProxyAgent : Env -> completion Dispatcher.

(** [process.env.IS_STANDALONE] used as a condition. *)
Definition IS_STANDALONE (env : Env) : bool := truthy (env !! "IS_STANDALONE").

(** Lines 127-129 and 225-227. *)
Definition proxy_of (env : Env) : option string :=
  let httpsProxy := env !! "https_proxy" ||| env !! "HTTPS_PROXY" in
  let httpProxy := env !! "http_proxy" ||| env !! "HTTP_PROXY" in
  httpsProxy ||| httpProxy.

Definition is_socks (protocol : string) : bool :=
  String.eqb protocol "socks" || String.eqb protocol "socks4"
  || String.eqb protocol "socks5".

Definition is_http (protocol : string) : bool :=
  String.eqb protocol "http" || String.eqb protocol "https".

(** The immediately invoked function of lines 120-174, up to its [return]:
    the local [baseFetch] that the returned arrow function captures. *)
Definition fetch_IIFE (env : Env) : M fn :=
  Eff.with_locals globalThis_fetch (
    Eff.try_catch
      (match proxy_of env with
       | Some (String _ _ as proxy) =>
           proxyUrl ← Eff.of_completion (new_URL proxy);
           let protocol := str_replace ":" "" (protocol proxyUrl) in
           if is_socks protocol then
             Eff.lift (emit (console_log
               ("[net] Configuring SOCKS proxy: " ++ protocol ++ "://" ++ host proxyUrl)));;
             dispatcher ← Eff.of_completion (new_ProxyAgent proxy);
             Eff.lift (write_configuredDispatcher dispatcher);;
             Eff.set_local (fun _ => dispatcherFetch)
           else if is_http protocol then
             if IS_STANDALONE env then
               Eff.lift (emit (console_log
                 "[net] Configuring HTTP/HTTPS proxy from environment variables"));;
               dispatcher ← Eff.of_completion (new_EnvHttpProxyAgent env);
               Eff.lift (write_configuredDispatcher dispatcher);;
               Eff.set_local (fun _ => dispatcherFetch)
             else mret tt
           else
             Eff.lift (emit (console_warn
               ("[net] Unsupported proxy protocol: " ++ protocol ++ ", using default fetch")
               None))
       | _ =>
           if IS_STANDALONE env then Eff.set_local (fun _ => undiciFetch)
           else mret tt
       end)
      (fun error =>
         Eff.lift (emit (console_warn
           "Failed to configure proxy agent, using default fetch:" (Some error)));;
         if IS_STANDALONE env then Eff.set_local (fun _ => undiciFetch)
         else mret tt);;
    Eff.get_local).

(** Calling a function value.  The arrow function next to a dispatcher calls
    [undiciFetch(input, { ...init, dispatcher: configuredDispatcher })]. *)
Definition invoke (f : fn) (input : RequestInfo) (init : option JsObject) : M Response :=
  emit (call f input init);;
  match f with
  | dispatcherFetch =>
      d ← read_configuredDispatcher;
      emit (call undiciFetch input
              (Some (<["dispatcher" := VDispatcher d]> (default ∅ init))));;
      mret (returned_by f input init)
  | _ => mret (returned_by f input init)
  end.

(** The exported [fetch] (line 173), for the [baseFetch] it captured:
    [(mockFetch || baseFetch)(input, init)]. *)
Definition fetch (baseFetch : fn) (input : RequestInfo) (init : option JsObject)
  : M Response :=
  m ← read_mockFetch;
  invoke (default baseFetch m) input init.

(** Lines 184-203.  The local is [willResetSync]. *)
Definition mockFetchForTesting {T} (theFetch : fn) (callback : M (value T))
  : M (value T) :=
  originalMockFetch ← read_mockFetch;
  write_mockFetch (Some theFetch);;
  Eff.with_locals true (
    Eff.try_finally
      (result ← Eff.lift callback;
       match result with
       | APromise p =>
           Eff.set_local (fun _ => false);;
           mret (APromise (finally_of p (write_mockFetch originalMockFetch)))
       | Plain _ => mret result
       end)
      (willResetSync ← Eff.get_local;
       if (willResetSync : bool) then Eff.lift (write_mockFetch originalMockFetch)
       else mret tt)).

(** [{ adapter: "fetch", fetch }] *)
Definition fetch_adapter_settings : JsObject :=
  {[ "adapter" := VString "fetch"; "fetch" := VExportedFetch ]}.

(** Lines 223-266, the body of the outer [try].  The locals are
    [(needsFetchAdapter, isSocksProxy)]. *)
Definition getAxiosSettings_try (env : Env) : M JsObject :=
  Eff.with_locals (false, false) (
    match proxy_of env with
    | Some (String _ _ as proxy) =>
        Eff.try_catch
          (proxyUrl ← Eff.of_completion (new_URL proxy);
           let protocol := str_replace ":" "" (protocol proxyUrl) in
           if is_socks protocol then
             Eff.lift (emit (console_log
               ("[net] Axios using SOCKS proxy via fetch adapter: "
                ++ protocol ++ "://" ++ host proxyUrl)));;
             Eff.set_local (fun '(_, isSocksProxy) => (true, isSocksProxy));;
             Eff.set_local (fun '(needsFetchAdapter, _) => (needsFetchAdapter, true))
           else mret tt)
          (fun error =>
             Eff.lift (emit (console_warn "[net] Failed to parse proxy URL:"
                               (Some error))))
    | _ => mret tt
    end;;
    (if IS_STANDALONE env then
       Eff.lift (emit (console_log "[net] Axios using fetch adapter in standalone mode"));;
       Eff.set_local (fun '(_, isSocksProxy) => (true, isSocksProxy))
     else mret tt);;
    '(needsFetchAdapter, _) ← Eff.get_local;
    if (needsFetchAdapter : bool) then mret fetch_adapter_settings
    else
      Eff.lift (emit (console_log
        "[net] Axios using default http adapter (VSCode proxy support)"));;
      mret ∅).

(** Lines 267-270, the outer [catch]. *)
Definition getAxiosSettings_catch (error : Error) : M JsObject :=
  emit (console_warn "Failed to configure axios settings, using default:" (Some error));;
  mret ∅.

(** Lines 222-271. *)
Definition getAxiosSettings (env : Env) : M JsObject :=
  Eff.try_catch (getAxiosSettings_try env) getAxiosSettings_catch.

End Net.

(** ** The redirect URI of the host (getIdeRedirectUri.ts) *)

Module HostBridge.
(** The [String] message of the common protocol: one field. *)
Record ProtoString : Type := mkProtoString { value : string }.

(** [getIdeRedirectUri(_)], as a function of [vscode.env.uriScheme]; the
    promise it returns is fulfilled with the message. *)
Definition getIdeRedirectUri (env_uriScheme : option string) : ProtoString :=
  let uriScheme := env_uriScheme ||| Some "vscode" in
  let url := match uriScheme with
             | Some s => s
             | None => "undefined"
             end ++ "://alsritter.cline-fork" in
  {| value := url |}.
End HostBridge.

(** ** The AIhubmix model list (getAihubmixModels)

    The handler asks the AIhubmix API for its models with axios, configured by
    [getAxiosSettings()], and turns the answer into a map of model
    descriptions.  The answer is any JavaScript value; numbers are binary64
    floats. *)

Module Aihubmix.

(** A value as [JSON.parse] builds it, or [undefined].  An object is the list
    of its own properties, each name once. *)
#[warnings="-register-all"]
Inductive JsAny : Type :=
| JUndefined
| JNull
| JBool (b : bool)
| JNumber (x : float)
| JString (s : string)
| JArray (items : list JsAny)
| JObject (properties : list (string * JsAny)).

Fixpoint own_property (properties : list (string * JsAny)) (name : string) : JsAny :=
  match properties with
  | [] => JUndefined
  | (k, v) :: rest => if String.eqb k name then v else own_property rest name
  end.

(** Truthiness. *)
Definition ToBoolean (v : JsAny) : bool :=
  match v with
  | JUndefined | JNull => false
  | JBool b => b
  | JNumber x => negb (PrimFloat.eqb x 0) && PrimFloat.eqb x x
  | JString s => negb (String.eqb s "")
  | JArray _ | JObject _ => true
  end.

(** The [TypeError] of the engine; the message is the engine's own. *)
Definition TypeError (message : string) : Error := JsError "TypeError" message.

(** [v.name], for the names the handler reads, which no built-in prototype
    defines: an own property of an object, [undefined] on any other value
    that has properties, a [TypeError] on [null] and [undefined]. *)
Definition get (v : JsAny) (name : string) : completion JsAny :=
  match v with
  | JUndefined =>
      Throw (TypeError ("Cannot read properties of undefined (reading '" ++ name ++ "')"))
  | JNull =>
      Throw (TypeError ("Cannot read properties of null (reading '" ++ name ++ "')"))
  | JObject properties => Normal (own_property properties name)
  | _ => Normal JUndefined
  end.

(** [v?.name] *)
Definition get_opt (v : JsAny) (name : string) : JsAny :=
  match get v name with
  | Normal r => r
  | Throw _ => JUndefined
  end.

(** [a || b] *)
Definition or_else (a b : JsAny) : JsAny := if ToBoolean a then a else b.

(** [a ?? b] *)
Definition nullish (a b : JsAny) : JsAny :=
  match a with
  | JUndefined | JNull => b
  | _ => a
  end.

(** [a === b] on values of one parsed answer: primitives by value, numbers by
    IEEE equality, two objects or arrays never (they are distinct objects). *)
Definition strict_equal (a b : JsAny) : bool :=
  match a, b with
  | JUndefined, JUndefined => true
  | JNull, JNull => true
  | JBool x, JBool y => Bool.eqb x y
  | JNumber x, JNumber y => PrimFloat.eqb x y
  | JString x, JString y => String.eqb x y
  | _, _ => false
  end.

(** [Array.isArray(v)] *)
Definition isArray (v : JsAny) : bool :=
  match v with
  | JArray _ => true
  | _ => false
  end.

(** [s.split(sep)] for a separator of one character. *)
Fixpoint split (sep : ascii) (s : string) : list string :=
  match s with
  | EmptyString => [EmptyString]
  | String c rest =>
      if Ascii.eqb c sep then EmptyString :: split sep rest
      else match split sep rest with
           | piece :: pieces => String c piece :: pieces
           | [] => [String c EmptyString]
           end
  end.

(** [l.includes(x)] on an array of strings. *)
Definition includes (x : string) (l : list string) : bool := existsb (String.eqb x) l.

(** [a && b] and [a || b] on conditions that may throw: the right operand is
    used only when the left one does not decide. *)
Definition and_then (a b : completion bool) : completion bool :=
  x ← a; if (x : bool) then b else mret false.

Definition or_then (a b : completion bool) : completion bool :=
  x ← a; if (x : bool) then mret true else b.

(** The text of an empty string literal: two double quotes. *)
Definition quotes : string := String "034"%char (String "034"%char EmptyString).

(** A text in a template literal. *)
Definition template (v : option string) : string :=
  match v with
  | Some s => s
  | None => "undefined"
  end.

(** The fields handed to [OpenRouterModelInfo.create], which builds the
    message from them and is taken to return normally. *)
Record OpenRouterModelInfo : Type := mkOpenRouterModelInfo {
  maxTokens : JsAny;
  contextWindow : JsAny;
  supportsImages : bool;
  supportsPromptCache : bool;
  inputPrice : JsAny;
  outputPrice : JsAny;
  cacheWritesPrice : JsAny;
  cacheReadsPrice : JsAny;
  description : JsAny;
  thinkingConfig : JsAny;
  supportsGlobalEndpoint : JsAny;
  tiers : list JsAny
}.

(** The fields handed to [OpenRouterCompatibleModelInfo.create], likewise. *)
Record OpenRouterCompatibleModelInfo : Type := mkOpenRouterCompatibleModelInfo {
  models : gmap string OpenRouterModelInfo
}.

(** What the handler does to the outside, in order. *)
Inductive HandlerEvent : Type :=
| handler_log (message : string)                         (* console.log *)
| handler_error_data (message : string) (data : JsAny)   (* console.error, with response.data *)
| handler_error (message : string) (error : Error)       (* console.error, with the error *)
| axios_get_call (url : string) (config : JsObject).     (* axios.get(url, config) *)

Definition url : string := "https://aihubmix.com/call/mdl_info_platform?tag=coding".

Abbreviation HM := (Eff (State * list HandlerEvent)).

Definition say (e : HandlerEvent) : HM unit := Eff.set_local (fun t => (t ++ [e])%list).

(** [await p] for a promise that settles with [o]. *)
Definition await {A} (o : outcome A) : HM A :=
  match o with
  | Fulfilled v => mret v
  | Rejected e => Eff.throw e
  end.

(** [modelsMap[modelId] = info].  [modelsMap] is an ordinary object: assigning
    an object to its [__proto__] sets the prototype and adds no own
    property. *)
Definition assign (modelsMap : gmap string OpenRouterModelInfo) (modelId : string)
    (info : OpenRouterModelInfo) : gmap string OpenRouterModelInfo :=
  if String.eqb modelId "__proto__" then modelsMap else <[modelId := info]> modelsMap.

Section Handler.
(** [String.prototype.trim] *)
Variable trim : string -> string.
(** [new URL(s)] *)
Variable new_URL : string -> completion URL.
(** How the promise of [axios.get(url, config)] settles: fulfilled with a
    response, of which the handler reads [data], or rejected. *)
Variable axios_get : string -> JsObject -> outcome JsAny.

(** [(modelData.name || "").split(",").map((m) => m.trim())], for the value
    [v] of [modelData.name].  The engine names the callee in the message of
    its [TypeError]. *)
Definition trimmed_items (name : string) (v : JsAny) : completion (list string) :=
  match or_else v (JString "") with
  | JString s => Normal (List.map trim (split "," s))
  | _ =>
      Throw (TypeError ("(modelData." ++ name ++ " || " ++ quotes
                        ++ ").split is not a function"))
  end.

(** The body of the loop after the [continue] test: the fields of the model
    description of one entry. *)
Definition model_info (modelData : JsAny) : completion OpenRouterModelInfo :=
  modalities ← get modelData "modalities" ≫= trimmed_items "modalities";
  features ← get modelData "features" ≫= trimmed_items "features";
  let supportsImages :=
    includes "vision" modalities || includes "image" modalities
    || includes "vision" features || false in
  let supportsThinking := includes "thinking" features || false in
  pricing ← (p ← get modelData "pricing"; mret (or_else p (JObject [])));
  supportsPromptCache ←
    or_then
      (and_then
         (r ← get modelData "cache_ratio"; mret (negb (strict_equal r JUndefined)))
         (r ← get modelData "cache_ratio"; mret (negb (strict_equal r (JNumber 1)))))
      (and_then
         (r ← get pricing "cache_read"; mret (negb (strict_equal r JUndefined)))
         (and_then
            (i ← get pricing "input"; mret (negb (strict_equal i JUndefined)))
            (r ← get pricing "cache_read"; i ← get pricing "input";
             mret (negb (strict_equal r i)))));
  max_output ← get modelData "max_output";
  context_window ← get modelData "context_window";
  input ← get pricing "input";
  output ← get pricing "output";
  cache_write ← get pricing "cache_write";
  cache_read ← get pricing "cache_read";
  description ←
    (d ← get modelData "desc_en";
     if ToBoolean d then mret d
     else d' ← get modelData "desc"; mret (or_else d' (JString "")));
  thinking_config ←
    (if supportsThinking then
       t ← get modelData "thinking_config";
       if ToBoolean t then get modelData "thinking_config" else mret JUndefined
     else mret JUndefined);
  supports_global_endpoint ← get modelData "supports_global_endpoint";
  mret {| maxTokens := nullish max_output (JNumber 8192);
          contextWindow := nullish context_window (JNumber 128000);
          supportsImages := supportsImages;
          supportsPromptCache := supportsPromptCache;
          inputPrice := nullish input (JNumber 0);
          outputPrice := nullish output (JNumber 0);
          cacheWritesPrice := nullish cache_write (JNumber 0);
          cacheReadsPrice := nullish cache_read (JNumber 0);
          description := description;
          thinkingConfig := thinking_config;
          supportsGlobalEndpoint := nullish supports_global_endpoint JUndefined;
          tiers := [] |}.

(** One turn of the loop: an entry whose [model] is not a non-empty string is
    passed over. *)
Definition loop_body (modelsMap : gmap string OpenRouterModelInfo) (modelData : JsAny)
  : completion (gmap string OpenRouterModelInfo) :=
  model ← get modelData "model";
  match model with
  | JString (String _ _ as modelId) =>
      info ← model_info modelData;
      mret (assign modelsMap modelId info)
  | _ => mret modelsMap
  end.

(** [for (const modelData of modelsArray) { ... }] *)
Fixpoint for_of (modelsArray : list JsAny) (modelsMap : gmap string OpenRouterModelInfo)
  : completion (gmap string OpenRouterModelInfo) :=
  match modelsArray with
  | [] => Normal modelsMap
  | modelData :: rest =>
      modelsMap' ← loop_body modelsMap modelData;
      for_of rest modelsMap'
  end.

(** [getAihubmixModels(_controller, _request)]: what the promise it returns
    is settled with.  The part before [await] and the part after it run back
    to back.  After the test of the answer, [response.data.data] is the array
    that [response.data?.data] was. *)
Definition getAihubmixModels (env : Env) : HM OpenRouterCompatibleModelInfo :=
  Eff.try_catch
    (let httpProxy := env !! "http_proxy" ||| env !! "HTTP_PROXY" in
     let httpsProxy := env !! "https_proxy" ||| env !! "HTTPS_PROXY" in
     (if truthy (httpProxy ||| httpsProxy) then
        say (handler_log
               ("[AIhubmix] Using proxy - HTTP: " ++ template (httpProxy ||| Some "none")
                ++ ", HTTPS: " ++ template (httpsProxy ||| Some "none")))
      else mret tt);;
     say (handler_log ("[AIhubmix] Fetching models from: " ++ url));;
     config ← Eff.lift (getAxiosSettings new_URL env);
     say (axios_get_call url config);;
     data ← await (axios_get url config);
     match ToBoolean (get_opt data "success"), get_opt data "data" with
     | true, JArray modelsArray =>
         say (handler_log ("Fetched " ++ pretty (length modelsArray)
                           ++ " AIhubmix models from API"));;
         modelsMap ← Eff.of_completion (for_of modelsArray ∅);
         say (handler_log ("Fetched " ++ pretty (size modelsMap) ++ " AIhubmix models"));;
         mret {| models := modelsMap |}
     | _, _ =>
         say (handler_error_data "Invalid response from AIhubmix API:" data);;
         mret {| models := ∅ |}
     end)
    (fun error =>
       say (handler_error "Failed to fetch AIhubmix models:" error);;
       mret {| models := ∅ |}).

End Handler.
End Aihubmix.

(** ** Vocabulary of the specification *)

(** The first non-empty value of a list of variables, in order. *)
Fixpoint first_non_empty (vs : list (option string)) : option string :=
  match vs with
  | [] => None
  | v :: vs' => if truthy v then v else first_non_empty vs'
  end.

(** The proxy URL that selection uses: the value tested by [if (proxy)]. *)
Definition used_proxy (proxy : option string) : option string :=
  if truthy proxy then proxy else None.

(** Protocol classes of the decision table. *)
Inductive ProtocolClass : Type :=
| class_none
| class_socks
| class_http
| class_unsupported.

Definition supported_schemes : list string :=
  ["http"; "https"; "socks"; "socks4"; "socks5"].

Definition class_of_scheme (scheme : string) : ProtocolClass :=
  if bool_decide (scheme ∈ ["socks"; "socks4"; "socks5"]) then class_socks
  else if bool_decide (scheme ∈ ["http"; "https"]) then class_http
  else class_unsupported.

(** What the exported [fetch] is backed by when no override is installed. *)
Inductive Transport : Type :=
| host_global_fetch              (* NativeHostTransport *)
| via_ProxyAgent (uri : string)  (* ProxyDispatcherTransport *)
| via_EnvHttpProxyAgent          (* EnvProxyDispatcherTransport *)
| plain_undici_fetch.            (* UnmodifiedDefault *)

(** The decision table over protocol class and deployment mode. *)
Definition decision_table (c : ProtocolClass) (standalone : bool) (proxy : string)
  : Transport :=
  match c, standalone with
  | class_none, false => host_global_fetch
  | class_none, true => plain_undici_fetch
  | class_socks, _ => via_ProxyAgent proxy
  | class_http, false => host_global_fetch
  | class_http, true => via_EnvHttpProxyAgent
  | class_unsupported, _ => host_global_fetch
  end.

(** The transport read off the module after initialisation: the captured
    [baseFetch] and, for the arrow function, [configuredDispatcher]. *)
Definition transport_of (baseFetch : fn) (st : State) : option Transport :=
  match baseFetch with
  | globalThis_fetch => Some host_global_fetch
  | undiciFetch => Some plain_undici_fetch
  | dispatcherFetch =>
      match configuredDispatcher st with
      | Some (ProxyAgent uri) => Some (via_ProxyAgent uri)
      | Some (EnvHttpProxyAgent _ _ _) => Some via_EnvHttpProxyAgent
      | None => None
      end
  | userFetch _ => None
  end.

(** The constructor that a transport of the table needs, called as
    initialisation calls it: its result, or nothing when the transport needs
    no dispatcher. *)
Definition construction (new_ProxyAgent : string -> completion Dispatcher)
    (new_EnvHttpProxyAgent : Env -> completion Dispatcher) (t : Transport) (env : Env)
  : option (completion Dispatcher) :=
  match t with
  | via_ProxyAgent uri => Some (new_ProxyAgent uri)
  | via_EnvHttpProxyAgent => Some (new_EnvHttpProxyAgent env)
  | host_global_fetch | plain_undici_fetch => None
  end.

(** Initialisation from the console line that announces a dispatcher on: the
    dispatcher is stored and the arrow function selected; if the constructor
    throws, the [catch] block warns and selects the transport of the
    deployment mode. *)
Definition after_construction (env : Env) (line : string) (c : completion Dispatcher)
    (st : State) : completion fn * State :=
  let st1 := log_event (console_log line) st in
  match c with
  | Normal dispatcher => (Normal dispatcherFetch, set_configuredDispatcher dispatcher st1)
  | Throw error =>
      (Normal (if IS_STANDALONE env then undiciFetch else globalThis_fetch),
       log_event (console_warn "Failed to configure proxy agent, using default fetch:"
                    (Some error)) st1)
  end.

(** How an environment falls into a protocol class: no proxy is configured, or
    the proxy URL parses and its scheme decides.  The second index is the proxy
    URL, empty when there is none. *)
Inductive proxy_class (new_URL : string -> completion URL) (env : Env)
  : ProtocolClass -> string -> Prop :=
| no_proxy_configured :
    truthy (proxy_of env) = false ->
    proxy_class new_URL env class_none ""
| proxy_parsed (proxy : string) (u : URL) :
    proxy_of env = Some proxy -> proxy <> "" -> new_URL proxy = Normal u ->
    proxy_class new_URL env (class_of_scheme (str_replace ":" "" (protocol u))) proxy.

(** The part of [getAxiosSettings] after the proxy check, for the value of
    [needsFetchAdapter] reached there. *)
Definition settings_after_proxy_check (env : Env) (needsFetchAdapter : bool) (st : State)
  : completion JsObject * State :=
  if IS_STANDALONE env then
    (Normal fetch_adapter_settings,
     log_event (console_log "[net] Axios using fetch adapter in standalone mode") st)
  else if needsFetchAdapter then (Normal fetch_adapter_settings, st)
  else
    (Normal ∅,
     log_event (console_log
       "[net] Axios using default http adapter (VSCode proxy support)") st).

(** The calls that one call of the function value [f] makes, in order. *)
Definition calls_of (f : fn) (input : RequestInfo) (init : option JsObject) (st : State)
  : list Event :=
  call f input init
  :: match f with
     | dispatcherFetch =>
         [call undiciFetch input
            (Some (<["dispatcher" := VDispatcher (configuredDispatcher st)]>
                     (default ∅ init)))]
     | _ => []
     end.

Definition is_warning (e : Event) : bool :=
  match e with
  | console_warn _ _ => true
  | _ => false
  end.

(** Number of [console.warn] calls in a trace. *)
Definition warnings (t : list Event) : nat := length (List.filter is_warning t).

(** The five variables the module reads. *)
Definition read_variables : list string :=
  ["https_proxy"; "HTTPS_PROXY"; "http_proxy"; "HTTP_PROXY"; "IS_STANDALONE"].

(** ** Vocabulary for the redirect URI *)

(** The scheme the redirect URI is built from: the host's, or [vscode] when
    the host has none or an empty one. *)
Definition effective_scheme (env_uriScheme : option string) : string :=
  if truthy env_uriScheme then default "" env_uriScheme else "vscode".

(** ** Vocabulary for the AIhubmix handler *)

(** The array of entries in an answer that the handler accepts: the promise
    is fulfilled, [data.success] is truthy and [data.data] is an array. *)
Definition answer_items (o : outcome Aihubmix.JsAny) : option (list Aihubmix.JsAny) :=
  match o with
  | Fulfilled data =>
      match Aihubmix.ToBoolean (Aihubmix.get_opt data "success"),
            Aihubmix.get_opt data "data" with
      | true, Aihubmix.JArray items => Some items
      | _, _ => None
      end
  | Rejected _ => None
  end.

(** The requests made, in order. *)
Definition requests (events : list Aihubmix.HandlerEvent) : list (string * JsObject) :=
  omap (fun e => match e with
                 | Aihubmix.axios_get_call u c => Some (u, c)
                 | _ => None
                 end) events.

Definition is_console_error (e : Aihubmix.HandlerEvent) : bool :=
  match e with
  | Aihubmix.handler_error_data _ _ | Aihubmix.handler_error _ _ => true
  | _ => false
  end.

(** Number of [console.error] calls. *)
Definition console_errors (events : list Aihubmix.HandlerEvent) : nat :=
  length (List.filter is_console_error events).

(** The line that announces the proxy, printed when the net module sees a
    proxy, with the value of each pair of variables or [none]. *)
Definition proxy_announcement (env : Env) : list Aihubmix.HandlerEvent :=
  if truthy (proxy_of env) then
    [Aihubmix.handler_log
       ("[AIhubmix] Using proxy - HTTP: "
        ++ Aihubmix.template ((env !! "http_proxy" ||| env !! "HTTP_PROXY") ||| Some "none")
        ++ ", HTTPS: "
        ++ Aihubmix.template ((env !! "https_proxy" ||| env !! "HTTPS_PROXY")
                              ||| Some "none"))]
  else [].

(** An entry the loop passes over: reading [model] succeeds and gives
    something else than a non-empty string. *)
Definition passed_over (modelData : Aihubmix.JsAny) : Prop :=
  exists model,
    Aihubmix.get modelData "model" = Normal model
    /\ forall c s, model <> Aihubmix.JString (String c s).

(** A value on which [(v || "").split(",")] fails: truthy and not a string. *)
Definition not_splittable (v : Aihubmix.JsAny) : Prop :=
  Aihubmix.ToBoolean v = true /\ forall s, v <> Aihubmix.JString s.

(** An entry on which the loop throws: [null] or [undefined], or an object
    with a model id whose [modalities] or [features] cannot be split. *)
Inductive breaks_loop : Aihubmix.JsAny -> Prop :=
| breaks_null : breaks_loop Aihubmix.JNull
| breaks_undefined : breaks_loop Aihubmix.JUndefined
| breaks_modalities properties c s :
    Aihubmix.own_property properties "model" = Aihubmix.JString (String c s) ->
    not_splittable (Aihubmix.own_property properties "modalities") ->
    breaks_loop (Aihubmix.JObject properties)
| breaks_features properties c s :
    Aihubmix.own_property properties "model" = Aihubmix.JString (String c s) ->
    not_splittable (Aihubmix.own_property properties "features") ->
    breaks_loop (Aihubmix.JObject properties).

(** The white space and line terminators of the language, in UTF-8: tab, line
    feed, vertical tab, form feed, carriage return, space, U+00A0, U+1680,
    U+2000 to U+200A, U+2028, U+2029, U+202F, U+205F, U+3000 and U+FEFF. *)
Definition white_space : list (list ascii) :=
  List.map (List.map ascii_of_nat)
    ([[9]; [10]; [11]; [12]; [13]; [32]; [194; 160]; [225; 154; 128]]
       ++ List.map (fun n => [226; 128; 128 + n]) (seq 0 11)
       ++ [[226; 128; 168]; [226; 128; 169]; [226; 128; 175]; [226; 129; 159];
           [227; 128; 128]; [239; 187; 191]]).

Fixpoint starts_with (w s : list ascii) : bool :=
  match w, s with
  | [], _ => true
  | c :: w', d :: s' => Ascii.eqb c d && starts_with w' s'
  | _ :: _, [] => false
  end.

(** Remove the members of [spaces] from the head of [s], as long as there
    are any. *)
Fixpoint strip (fuel : nat) (spaces : list (list ascii)) (s : list ascii) : list ascii :=
  match fuel with
  | 0 => s
  | S fuel' =>
      match List.find (fun w => starts_with w s) spaces with
      | Some w => strip fuel' spaces (drop (length w) s)
      | None => s
      end
  end.

(** [String.prototype.trim], on the UTF-8 text of a string. *)
Definition String_trim (s : string) : string :=
  let l := list_ascii_of_string s in
  let l := strip (length l) white_space l in
  string_of_list_ascii
    (rev (strip (length l) (List.map (@rev ascii) white_space) (rev l))).

(** ** Concrete environments and states *)

Definition env_socks5_standalone : Env :=
  {[ "https_proxy" := "socks5://proxy.local:1080"; "IS_STANDALONE" := "1" ]}.

Definition env_ftp_embedded : Env := {[ "https_proxy" := "ftp://proxy:21" ]}.

Definition env_ftp_standalone : Env :=
  {[ "https_proxy" := "ftp://proxy:21"; "IS_STANDALONE" := "1" ]}.

Definition env_malformed_embedded : Env := {[ "https_proxy" := "not-a-url" ]}.

Definition env_malformed_standalone : Env :=
  {[ "https_proxy" := "not-a-url"; "IS_STANDALONE" := "1" ]}.

Definition env_standalone : Env := {[ "IS_STANDALONE" := "1" ]}.

Definition env_http : Env := {[ "http_proxy" := "http://proxy.local:3128" ]}.

Definition env_http_standalone : Env :=
  {[ "http_proxy" := "http://proxy.local:3128"; "IS_STANDALONE" := "1" ]}.

Definition env_http_standalone_no_proxy : Env :=
  {[ "http_proxy" := "http://proxy.local:3128"; "IS_STANDALONE" := "1";
     "no_proxy" := "localhost" ]}.

Definition env_http_standalone_ca : Env :=
  {[ "http_proxy" := "http://proxy.local:3128"; "IS_STANDALONE" := "1";
     "NODE_EXTRA_CA_CERTS" := "/etc/ssl/ca.pem" ]}.

Definition env_broken_http_proxy : Env :=
  {[ "https_proxy" := "http://proxy.local:3128"; "http_proxy" := "not-a-url";
     "IS_STANDALONE" := "1" ]}.

Definition env_socks4_embedded : Env := {[ "https_proxy" := "socks4://proxy.local:1080" ]}.

(** Initialisation run with [WHATWG.parse] and the constructors of an undici
    with SOCKS5 support. *)
Abbreviation fetch_IIFE_on_node :=
  (fetch_IIFE WHATWG.parse (Undici.new_ProxyAgent true) (Undici.new_EnvHttpProxyAgent true)).


Definition st_override_1 : State := set_mockFetch (Some (userFetch 1)) module_start.

(** The state after initialisation with an http proxy, standalone. *)
Definition st_http_standalone : State :=
  snd (fetch_IIFE_on_node env_http_standalone module_start).

(** Entries of an answer of the AIhubmix API. *)
Definition entry_vision : Aihubmix.JsAny :=
  Aihubmix.JObject
    [("model", Aihubmix.JString "gpt-x");
     ("modalities", Aihubmix.JString "text, vision");
     ("features", Aihubmix.JString "thinking,tools");
     ("pricing", Aihubmix.JObject [("input", Aihubmix.JNumber 1.5);
                                   ("output", Aihubmix.JNumber 2);
                                   ("cache_read", Aihubmix.JNumber 0.5)]);
     ("thinking_config", Aihubmix.JObject [("budget", Aihubmix.JNumber 100)])].

Definition entry_plain : Aihubmix.JsAny :=
  Aihubmix.JObject [("model", Aihubmix.JString "plain")].

Definition entry_null_ratio : list (string * Aihubmix.JsAny) :=
  [("model", Aihubmix.JString "cached"); ("cache_ratio", Aihubmix.JNull)].

Definition entry_modalities_array : Aihubmix.JsAny :=
  Aihubmix.JObject [("model", Aihubmix.JString "listed");
                    ("modalities", Aihubmix.JArray [Aihubmix.JString "vision"])].

Definition answer_ok : Aihubmix.JsAny :=
  Aihubmix.JObject
    [("success", Aihubmix.JBool true);
     ("data", Aihubmix.JArray [entry_vision; Aihubmix.JNumber 3; entry_plain])].

Definition answer_broken : Aihubmix.JsAny :=
  Aihubmix.JObject
    [("success", Aihubmix.JBool true);
     ("data", Aihubmix.JArray [entry_vision; entry_modalities_array; entry_plain])].

Definition answer_invalid : Aihubmix.JsAny :=
  Aihubmix.JObject [("success", Aihubmix.JBool false); ("message", Aihubmix.JString "busy")].

(** An axios that answers every request with [data]. *)
Definition axios_answers (data : Aihubmix.JsAny) (url : string) (config : JsObject)
  : outcome Aihubmix.JsAny :=
  Fulfilled data.

(** The module state after [getAxiosSettings()] in standalone mode. *)
Definition st_after_settings : State :=
  log_event (console_log "[net] Axios using fetch adapter in standalone mode") module_start.

(** ** Properties *)

Ltac eff_unfold :=
  cbv beta iota zeta delta
    [Eff.with_locals Eff.try_catch Eff.try_finally Eff.lift Eff.set_local
     Eff.get_local Eff.of_completion Eff.get Eff.modify Eff.throw Eff.bind Eff.ret
     emit read_mockFetch write_mockFetch read_configuredDispatcher
     write_configuredDispatcher mbind mret Eff_bind Eff_ret] in *.

(** *** The helpers on small inputs *)

Example replace_colon : str_replace ":" "" "socks5:" = "socks5".
Proof. reflexivity. Qed.

Example parse_socks5 :
  WHATWG.parse "socks5://proxy.local:1080"
  = Normal {| protocol := "socks5:"; host := "proxy.local:1080" |}.
Proof. vm_compute. reflexivity. Qed.

Example parse_http_default_port :
  WHATWG.parse "HTTP://user:pw@Proxy.Local:80/x"
  = Normal {| protocol := "http:"; host := "proxy.local" |}.
Proof. vm_compute. reflexivity. Qed.

Example parse_ftp :
  WHATWG.parse "ftp://proxy:21" = Normal {| protocol := "ftp:"; host := "proxy" |}.
Proof. vm_compute. reflexivity. Qed.

Example parse_not_a_url : WHATWG.parse "not-a-url" = Throw WHATWG.invalid_URL.
Proof. vm_compute. reflexivity. Qed.

Example parse_bare_host_port :
  WHATWG.parse "proxy.example:3128" = Normal {| protocol := "proxy.example:"; host := "" |}.
Proof. vm_compute. reflexivity. Qed.

Example parse_percent_in_domain :
  WHATWG.parse "http://a%b.com:3128" = Throw WHATWG.invalid_URL
  /\ WHATWG.parse "http://%50roxy.local:3128"
     = Normal {| protocol := "http:"; host := "proxy.local:3128" |}
  /\ WHATWG.parse "socks5://a%b.com:1080"
     = Normal {| protocol := "socks5:"; host := "a%b.com:1080" |}.
Proof. vm_compute. repeat split; reflexivity. Qed.

Example parse_address_literals :
  WHATWG.parse "http://0x7f.1:3128"
  = Normal {| protocol := "http:"; host := "127.0.0.1:3128" |}
  /\ WHATWG.parse "http://10.0.0.256:3128" = Throw WHATWG.invalid_URL
  /\ WHATWG.parse "socks5://[0:0:0:0:0:0:0:1]:1080"
     = Normal {| protocol := "socks5:"; host := "[::1]:1080" |}
  /\ WHATWG.parse "http://[::ffff:10.0.0.1]"
     = Normal {| protocol := "http:"; host := "[::ffff:a00:1]" |}
  /\ WHATWG.parse "http://[::1" = Throw WHATWG.invalid_URL.
Proof. vm_compute. repeat split; reflexivity. Qed.

Lemma truthy_Some_iff (s : string) : truthy (Some s) = true <-> s <> "".
Proof. destruct s; simpl; split; congruence. Qed.

Lemma is_socks_spec scheme :
  is_socks scheme = true <-> scheme ∈ ["socks"; "socks4"; "socks5"].
Proof.
  unfold is_socks.
  rewrite !orb_true_iff, !String.eqb_eq, !elem_of_cons, elem_of_nil. tauto.
Qed.

Lemma is_http_spec scheme :
  is_http scheme = true <-> scheme ∈ ["http"; "https"].
Proof.
  unfold is_http.
  rewrite !orb_true_iff, !String.eqb_eq, !elem_of_cons, elem_of_nil. tauto.
Qed.

Lemma supported_schemes_spec scheme :
  scheme ∈ supported_schemes <-> is_socks scheme = true \/ is_http scheme = true.
Proof.
  rewrite is_socks_spec, is_http_spec. unfold supported_schemes.
  rewrite !elem_of_cons, !elem_of_nil. tauto.
Qed.

(** The class of a scheme, in terms of the comparisons the code makes. *)
Lemma class_of_scheme_cases scheme :
  (is_socks scheme = true /\ class_of_scheme scheme = class_socks)
  \/ (is_socks scheme = false /\ is_http scheme = true
      /\ class_of_scheme scheme = class_http)
  \/ (is_socks scheme = false /\ is_http scheme = false
      /\ class_of_scheme scheme = class_unsupported).
Proof.
  unfold class_of_scheme.
  destruct (is_socks scheme) eqn:Hs.
  - left. apply is_socks_spec in Hs. rewrite bool_decide_eq_true_2 by exact Hs.
    split; reflexivity.
  - right. rewrite bool_decide_eq_false_2
      by (rewrite <- is_socks_spec; congruence).
    destruct (is_http scheme) eqn:Hh.
    + left. apply is_http_spec in Hh. rewrite bool_decide_eq_true_2 by exact Hh.
      repeat split; reflexivity.
    + right. rewrite bool_decide_eq_false_2
        by (rewrite <- is_http_spec; congruence).
      repeat split; reflexivity.
Qed.

(** What the [EnvHttpProxyAgent] of [Undici] reads. *)
Lemma Undici_agent_reads_six_variables socks5_support (env1 env2 : Env) :
  (forall k, k ∈ ["http_proxy"; "HTTP_PROXY"; "https_proxy"; "HTTPS_PROXY";
                  "no_proxy"; "NO_PROXY"] -> env1 !! k = env2 !! k) ->
  Undici.new_EnvHttpProxyAgent socks5_support env1
  = Undici.new_EnvHttpProxyAgent socks5_support env2.
Proof.
  intros H. unfold Undici.new_EnvHttpProxyAgent. rewrite !H by set_solver. reflexivity.
Qed.

Lemma proxy_class_inv new_URL env c proxy :
  proxy_class new_URL env c proxy ->
  (c = class_none /\ truthy (proxy_of env) = false)
  \/ exists u,
      proxy_of env = Some proxy /\ proxy <> "" /\ new_URL proxy = Normal u
      /\ c = class_of_scheme (str_replace ":" "" (protocol u)).
Proof.
  intros [Hnone | p u Hp Hne Hu]; [left; split; [reflexivity | exact Hnone]|].
  right. exists u. repeat split; assumption.
Qed.

Lemma truthy_Some_ne (v : option string) (proxy : string) :
  v = Some proxy -> proxy <> "" -> truthy v = true.
Proof. intros -> H. destruct proxy; [congruence | reflexivity]. Qed.

Section Properties.
Variable new_URL : string -> completion URL.
Variable new_ProxyAgent : string -> completion Dispatcher.
Variable new_EnvHttpProxyAgent : Env -> completion Dispatcher.

(** *** What [fetch_IIFE] does on each path *)

Lemma fetch_IIFE_no_proxy env st :
  truthy (proxy_of env) = false ->
  fetch_IIFE new_URL new_ProxyAgent new_EnvHttpProxyAgent env st
  = (Normal (if IS_STANDALONE env then undiciFetch else globalThis_fetch), st).
Proof.
  intros H. unfold fetch_IIFE. eff_unfold.
  destruct (proxy_of env) as [[|c s]|]; try discriminate H;
    destruct (IS_STANDALONE env); reflexivity.
Qed.

Lemma fetch_IIFE_throws env st proxy e :
  proxy_of env = Some proxy -> proxy <> "" -> new_URL proxy = Throw e ->
  fetch_IIFE new_URL new_ProxyAgent new_EnvHttpProxyAgent env st
  = (Normal (if IS_STANDALONE env then undiciFetch else globalThis_fetch),
     log_event (console_warn "Failed to configure proxy agent, using default fetch:"
                  (Some e)) st).
Proof.
  intros Hp Hne He. unfold fetch_IIFE. eff_unfold. rewrite Hp.
  destruct proxy as [|c s]; [congruence|]. rewrite He.
  destruct (IS_STANDALONE env); reflexivity.
Qed.

Lemma fetch_IIFE_socks env st proxy u :
  proxy_of env = Some proxy -> proxy <> "" -> new_URL proxy = Normal u ->
  is_socks (str_replace ":" "" (protocol u)) = true ->
  fetch_IIFE new_URL new_ProxyAgent new_EnvHttpProxyAgent env st
  = after_construction env
      ("[net] Configuring SOCKS proxy: "
       ++ str_replace ":" "" (protocol u) ++ "://" ++ host u)
      (new_ProxyAgent proxy) st.
Proof.
  intros Hp Hne Hu Hs. unfold fetch_IIFE, after_construction. eff_unfold. rewrite Hp.
  destruct proxy as [|c s]; [congruence|]. rewrite Hu. simpl. rewrite Hs.
  destruct (new_ProxyAgent (String c s)); [reflexivity|].
  destruct (IS_STANDALONE env); reflexivity.
Qed.

Lemma fetch_IIFE_http env st proxy u :
  proxy_of env = Some proxy -> proxy <> "" -> new_URL proxy = Normal u ->
  is_socks (str_replace ":" "" (protocol u)) = false ->
  is_http (str_replace ":" "" (protocol u)) = true ->
  fetch_IIFE new_URL new_ProxyAgent new_EnvHttpProxyAgent env st
  = if IS_STANDALONE env
    then after_construction env
           "[net] Configuring HTTP/HTTPS proxy from environment variables"
           (new_EnvHttpProxyAgent env) st
    else (Normal globalThis_fetch, st).
Proof.
  intros Hp Hne Hu Hs Hh. unfold fetch_IIFE, after_construction. eff_unfold. rewrite Hp.
  destruct proxy as [|c s]; [congruence|]. rewrite Hu. simpl. rewrite Hs, Hh.
  destruct (IS_STANDALONE env); [|reflexivity].
  destruct (new_EnvHttpProxyAgent env); reflexivity.
Qed.

Lemma fetch_IIFE_unsupported env st proxy u :
  proxy_of env = Some proxy -> proxy <> "" -> new_URL proxy = Normal u ->
  is_socks (str_replace ":" "" (protocol u)) = false ->
  is_http (str_replace ":" "" (protocol u)) = false ->
  fetch_IIFE new_URL new_ProxyAgent new_EnvHttpProxyAgent env st
  = (Normal globalThis_fetch,
     log_event (console_warn ("[net] Unsupported proxy protocol: "
                              ++ str_replace ":" "" (protocol u)
                              ++ ", using default fetch") None) st).
Proof.
  intros Hp Hne Hu Hs Hh. unfold fetch_IIFE. eff_unfold. rewrite Hp.
  destruct proxy as [|c s]; [congruence|]. rewrite Hu. simpl. rewrite Hs, Hh.
  reflexivity.
Qed.


(** *** What [getAxiosSettings] does on each path *)

Lemma getAxiosSettings_no_proxy env st :
  truthy (proxy_of env) = false ->
  getAxiosSettings new_URL env st = settings_after_proxy_check env false st.
Proof.
  intros H. unfold getAxiosSettings, getAxiosSettings_try, settings_after_proxy_check.
eff_unfold.
  destruct (proxy_of env) as [[|c s]|]; try discriminate H;
    destruct (IS_STANDALONE env); reflexivity.
Qed.

Lemma getAxiosSettings_throws env st proxy e :
  proxy_of env = Some proxy -> proxy <> "" -> new_URL proxy = Throw e ->
  getAxiosSettings new_URL env st
  = settings_after_proxy_check env false
      (log_event (console_warn "[net] Failed to parse proxy URL:" (Some e)) st).
Proof.
  intros Hp Hne He. unfold getAxiosSettings, getAxiosSettings_try, settings_after_proxy_check.
eff_unfold.
  rewrite Hp. destruct proxy as [|c s]; [congruence|]. rewrite He.
  destruct (IS_STANDALONE env); reflexivity.
Qed.

Lemma getAxiosSettings_socks env st proxy u :
  proxy_of env = Some proxy -> proxy <> "" -> new_URL proxy = Normal u ->
  is_socks (str_replace ":" "" (protocol u)) = true ->
  getAxiosSettings new_URL env st
  = settings_after_proxy_check env true
      (log_event (console_log ("[net] Axios using SOCKS proxy via fetch adapter: "
                               ++ str_replace ":" "" (protocol u) ++ "://" ++ host u))
         st).
Proof.
  intros Hp Hne Hu Hs. unfold getAxiosSettings, getAxiosSettings_try, settings_after_proxy_check.
eff_unfold.
  rewrite Hp. destruct proxy as [|c s]; [congruence|]. rewrite Hu. simpl. rewrite Hs.
  destruct (IS_STANDALONE env); reflexivity.
Qed.

Lemma getAxiosSettings_not_socks env st proxy u :
  proxy_of env = Some proxy -> proxy <> "" -> new_URL proxy = Normal u ->
  is_socks (str_replace ":" "" (protocol u)) = false ->
  getAxiosSettings new_URL env st = settings_after_proxy_check env false st.
Proof.
  intros Hp Hne Hu Hs. unfold getAxiosSettings, getAxiosSettings_try, settings_after_proxy_check.
eff_unfold.
  rewrite Hp. destruct proxy as [|c s]; [congruence|]. rewrite Hu. simpl. rewrite Hs.
  destruct (IS_STANDALONE env); reflexivity.
Qed.

Lemma fetch_adapter_settings_not_empty : fetch_adapter_settings <> ∅.
Proof.
  intros H. apply (f_equal (fun m : JsObject => m !! "adapter")) in H.
  unfold fetch_adapter_settings in H.
  rewrite lookup_insert_eq, lookup_empty in H. discriminate H.
Qed.

Lemma warnings_app (t l : list Event) : warnings (t ++ l) = warnings t + warnings l.
Proof. unfold warnings. rewrite List.filter_app, length_app. reflexivity. Qed.

Lemma warnings_log_event e st :
  warnings (trace (log_event e st))
  = warnings (trace st) + (if is_warning e then 1 else 0).
Proof.
  unfold warnings, log_event. simpl. rewrite List.filter_app, length_app. simpl.
  destruct (is_warning e); reflexivity.
Qed.

(** Every environment falls into a class. *)
Lemma env_cases env :
  truthy (proxy_of env) = false
  \/ exists proxy, proxy_of env = Some proxy /\ proxy <> "".
Proof.
  destruct (proxy_of env) as [[|c s]|] eqn:E; simpl; auto.
  right. exists (String c s). split; [reflexivity | discriminate].
Qed.


(** *** Transport selection *)

(** C1, as the code has it. In every class of the decision table and in both
    deployment modes, initialisation of the exported [fetch] returns normally
    and never touches the override slot.  Where the entry of the table needs no
    dispatcher (no proxy, an unsupported scheme, http or https when embedded),
    the transport left is that entry, no dispatcher is stored, and the state
    is untouched unless the scheme is unsupported.  Where it needs one (a
    [ProxyAgent] on the proxy URL for socks, socks4 and socks5 in both modes,
    an [EnvHttpProxyAgent] for http and https when standalone) and the
    constructor returns, the arrow function is selected next to the dispatcher
    returned, after one line that announces it.  Where the constructor throws,
    the error is caught: after the line that announces the dispatcher one
    warning carries the error, no dispatcher is stored, and the transport is
    the one of no proxy in the same mode. *)
Theorem transport_selection_follows_decision_table env st c proxy :
  proxy_class new_URL env c proxy ->
  exists baseFetch st',
    fetch_IIFE new_URL new_ProxyAgent new_EnvHttpProxyAgent env st = (Normal baseFetch, st')
    /\ mockFetch st' = mockFetch st
    /\ match construction new_ProxyAgent new_EnvHttpProxyAgent
               (decision_table c (IS_STANDALONE env) proxy) env with
       | None =>
           transport_of baseFetch st' = Some (decision_table c (IS_STANDALONE env) proxy)
           /\ configuredDispatcher st' = configuredDispatcher st
           /\ (c <> class_unsupported -> st' = st)
       | Some (Normal dispatcher) =>
           baseFetch = dispatcherFetch
           /\ configuredDispatcher st' = Some dispatcher
           /\ exists line, trace st' = (trace st ++ [console_log line])%list
       | Some (Throw error) =>
           transport_of baseFetch st'
           = Some (decision_table class_none (IS_STANDALONE env) "")
           /\ configuredDispatcher st' = configuredDispatcher st
           /\ exists line,
               trace st'
               = (trace st
                    ++ [console_log line;
                        console_warn "Failed to configure proxy agent, using default fetch:"
                          (Some error)])%list
       end.
Proof.
  intros [Hnone | p u Hp Hne Hu].
  - rewrite fetch_IIFE_no_proxy by exact Hnone.
    destruct (IS_STANDALONE env); do 2 eexists; repeat split; reflexivity.
  - destruct (class_of_scheme_cases (str_replace ":" "" (protocol u)))
      as [[Hs Hc] | [(Hs & Hh & Hc) | (Hs & Hh & Hc)]]; rewrite Hc.
    + rewrite (fetch_IIFE_socks _ _ _ _ Hp Hne Hu Hs). unfold after_construction. simpl.
      destruct (new_ProxyAgent p) as [d|e].
      * do 2 eexists. split; [reflexivity|]. split; [reflexivity|].
        split; [reflexivity|]. split; [reflexivity|].
        eexists. reflexivity.
      * destruct (IS_STANDALONE env); do 2 eexists; (split; [reflexivity|]);
          (split; [reflexivity|]); (split; [reflexivity|]); (split; [reflexivity|]);
          eexists; simpl; rewrite <- app_assoc; reflexivity.
    + rewrite (fetch_IIFE_http _ _ _ _ Hp Hne Hu Hs Hh). unfold after_construction.
      destruct (IS_STANDALONE env); simpl.
      * destruct (new_EnvHttpProxyAgent env) as [d|e].
        -- do 2 eexists. split; [reflexivity|]. split; [reflexivity|].
           split; [reflexivity|]. split; [reflexivity|].
           eexists. reflexivity.
        -- do 2 eexists; (split; [reflexivity|]);
             (split; [reflexivity|]); (split; [reflexivity|]); (split; [reflexivity|]);
             eexists; simpl; rewrite <- app_assoc; reflexivity.
      * do 2 eexists; repeat split; reflexivity.
    + rewrite (fetch_IIFE_unsupported _ _ _ _ Hp Hne Hu Hs Hh).
      do 2 eexists; repeat split; try reflexivity. congruence.
Qed.

(** C8. When the proxy URL parses and its scheme is none of http, https,
    socks, socks4, socks5, initialisation returns normally in both deployment
    modes, keeps the host global fetch, constructs no dispatcher and logs
    exactly one warning. *)
Theorem unsupported_scheme_keeps_default_fetch env st proxy u :
  proxy_of env = Some proxy -> proxy <> "" -> new_URL proxy = Normal u ->
  str_replace ":" "" (protocol u) ∉ supported_schemes ->
  exists st' message,
    fetch_IIFE new_URL new_ProxyAgent new_EnvHttpProxyAgent env st = (Normal globalThis_fetch, st')
    /\ trace st' = (trace st ++ [console_warn message None])%list
    /\ warnings (trace st') = S (warnings (trace st))
    /\ configuredDispatcher st' = configuredDispatcher st
    /\ mockFetch st' = mockFetch st.
Proof.
  intros Hp Hne Hu Hns.
  rewrite supported_schemes_spec in Hns.
  destruct (is_socks _) eqn:Hs; [tauto|]. destruct (is_http _) eqn:Hh; [tauto|].
  rewrite (fetch_IIFE_unsupported _ _ _ _ Hp Hne Hu Hs Hh).
  do 2 eexists. split; [reflexivity|]. split; [reflexivity|].
  rewrite warnings_log_event. simpl. repeat split. lia.
Qed.

(** C4. When the configured proxy value is not a parseable URL,
    initialisation returns normally in both deployment modes, logs exactly
    one warning carrying the parse error, constructs no dispatcher, and
    leaves the transport that an environment without proxy gets in the same
    deployment mode. *)
Theorem malformed_proxy_falls_back_to_no_proxy env st proxy e :
  proxy_of env = Some proxy -> proxy <> "" -> new_URL proxy = Throw e ->
  exists baseFetch st',
    fetch_IIFE new_URL new_ProxyAgent new_EnvHttpProxyAgent env st = (Normal baseFetch, st')
    /\ trace st'
       = (trace st ++ [console_warn "Failed to configure proxy agent, using default fetch:"
                         (Some e)])%list
    /\ warnings (trace st') = S (warnings (trace st))
    /\ configuredDispatcher st' = configuredDispatcher st
    /\ mockFetch st' = mockFetch st
    /\ forall env0,
         truthy (proxy_of env0) = false ->
         IS_STANDALONE env0 = IS_STANDALONE env ->
         fetch_IIFE new_URL new_ProxyAgent new_EnvHttpProxyAgent env0 st = (Normal baseFetch, st)
         /\ transport_of baseFetch st = transport_of baseFetch st'.
Proof.
  intros Hp Hne He.
  rewrite (fetch_IIFE_throws _ _ _ _ Hp Hne He).
  do 2 eexists. split; [reflexivity|]. split; [reflexivity|].
  rewrite warnings_log_event. simpl. split; [lia|]. do 2 (split; [reflexivity|]).
  intros env0 H0 Hmode. rewrite (fetch_IIFE_no_proxy _ _ H0), Hmode.
  split; reflexivity.
Qed.

(** C9, as the code has it. When none of the four proxy variables is set and
    IS_STANDALONE is set, initialisation selects undici's own fetch as it is:
    the module constructs no dispatcher and logs nothing (the state is
    unchanged), and a call of the exported [fetch] without override goes to
    undici's fetch with the caller's options, not to the host global fetch. *)
Theorem standalone_without_proxy_selects_plain_undici env st :
  env !! "https_proxy" = None -> env !! "HTTPS_PROXY" = None ->
  env !! "http_proxy" = None -> env !! "HTTP_PROXY" = None ->
  IS_STANDALONE env = true ->
  fetch_IIFE new_URL new_ProxyAgent new_EnvHttpProxyAgent env st = (Normal undiciFetch, st)
  /\ transport_of undiciFetch st = Some plain_undici_fetch
  /\ forall input init,
       mockFetch st = None ->
       fetch undiciFetch input init st
       = (Normal (returned_by undiciFetch input init),
          log_event (call undiciFetch input init) st).
Proof.
  intros H1 H2 H3 H4 Hs.
  assert (Hp : truthy (proxy_of env) = false).
  { unfold proxy_of, js_or. rewrite H1, H2, H3, H4. reflexivity. }
  rewrite (fetch_IIFE_no_proxy _ _ Hp), Hs. repeat split.
  intros input init Hm. unfold fetch, invoke. eff_unfold. rewrite Hm.
  reflexivity.
Qed.

(** C10, as the code has it. For two environments that agree on https_proxy,
    HTTPS_PROXY, http_proxy, HTTP_PROXY and IS_STANDALONE,
    [getAxiosSettings()] is the same from every state, and so is everything
    that the code of the module decides at initialisation: with one and the
    same constructed agent, initialisation is the same.  Initialisation as a
    whole is the same whenever [new EnvHttpProxyAgent()] gives the same result
    in both environments, and whenever it is not called: when embedded, and
    when the proxy URL is absent, does not parse or has another scheme than
    http and https.  When the constructor returns in both environments, the
    same function is selected and the same lines are logged, and the two
    initialisations differ at most in the agent stored.  The agent reads the
    environment by itself; what it reads there is outside the five
    variables. *)
Theorem selection_reads_only_five_variables (env1 env2 : Env) :
  (forall k, k ∈ read_variables -> env1 !! k = env2 !! k) ->
  forall st,
    getAxiosSettings new_URL env1 st = getAxiosSettings new_URL env2 st
    /\ (forall agent : completion Dispatcher,
          fetch_IIFE new_URL new_ProxyAgent (fun _ => agent) env1 st
          = fetch_IIFE new_URL new_ProxyAgent (fun _ => agent) env2 st)
    /\ (new_EnvHttpProxyAgent env1 = new_EnvHttpProxyAgent env2 ->
        fetch_IIFE new_URL new_ProxyAgent new_EnvHttpProxyAgent env1 st
        = fetch_IIFE new_URL new_ProxyAgent new_EnvHttpProxyAgent env2 st)
    /\ (IS_STANDALONE env1 = false
        \/ (forall proxy, ~ proxy_class new_URL env1 class_http proxy) ->
        fetch_IIFE new_URL new_ProxyAgent new_EnvHttpProxyAgent env1 st
        = fetch_IIFE new_URL new_ProxyAgent new_EnvHttpProxyAgent env2 st)
    /\ (forall agent1 agent2,
          new_EnvHttpProxyAgent env1 = Normal agent1 ->
          new_EnvHttpProxyAgent env2 = Normal agent2 ->
          exists baseFetch st1 st2,
            fetch_IIFE new_URL new_ProxyAgent new_EnvHttpProxyAgent env1 st
            = (Normal baseFetch, st1)
            /\ fetch_IIFE new_URL new_ProxyAgent new_EnvHttpProxyAgent env2 st
               = (Normal baseFetch, st2)
            /\ trace st1 = trace st2
            /\ mockFetch st1 = mockFetch st2
            /\ (configuredDispatcher st1 = configuredDispatcher st2
                \/ (configuredDispatcher st1 = Some agent1
                    /\ configuredDispatcher st2 = Some agent2))).
Proof.
  intros H st.
  assert (Hp : proxy_of env1 = proxy_of env2).
  { unfold proxy_of. rewrite !H by (unfold read_variables; set_solver).
    reflexivity. }
  assert (Hs : IS_STANDALONE env1 = IS_STANDALONE env2).
  { unfold IS_STANDALONE. rewrite H by (unfold read_variables; set_solver).
    reflexivity. }
  split; [|split; [|split; [|split]]].
  - unfold getAxiosSettings, getAxiosSettings_try. rewrite Hp, Hs. reflexivity.
  - intros agent. unfold fetch_IIFE. rewrite Hp, Hs. reflexivity.
  - intros Hagent. unfold fetch_IIFE. rewrite Hp, Hs, Hagent. reflexivity.
  - intros Hnot.
    destruct (env_cases env1) as [Hnone | (proxy & Hp1 & Hne)].
    + rewrite (fetch_IIFE_no_proxy env1) by exact Hnone.
      rewrite (fetch_IIFE_no_proxy env2) by (rewrite <- Hp; exact Hnone).
      rewrite Hs. reflexivity.
    + assert (Hp2 : proxy_of env2 = Some proxy) by (rewrite <- Hp; exact Hp1).
      destruct (new_URL proxy) as [u|e] eqn:Hu.
      * destruct (class_of_scheme_cases (str_replace ":" "" (protocol u)))
          as [[Hk Hc] | [(Hk & Hh & Hc) | (Hk & Hh & Hc)]].
        -- rewrite (fetch_IIFE_socks _ _ _ _ Hp1 Hne Hu Hk),
             (fetch_IIFE_socks _ _ _ _ Hp2 Hne Hu Hk).
           unfold after_construction. rewrite Hs. reflexivity.
        -- rewrite (fetch_IIFE_http _ _ _ _ Hp1 Hne Hu Hk Hh),
             (fetch_IIFE_http _ _ _ _ Hp2 Hne Hu Hk Hh).
           rewrite <- Hs. destruct Hnot as [-> | Hnot]; [reflexivity|].
           exfalso. apply (Hnot proxy). rewrite <- Hc.
           exact (proxy_parsed new_URL env1 proxy u Hp1 Hne Hu).
        -- rewrite (fetch_IIFE_unsupported _ _ _ _ Hp1 Hne Hu Hk Hh),
             (fetch_IIFE_unsupported _ _ _ _ Hp2 Hne Hu Hk Hh).
           reflexivity.
      * rewrite (fetch_IIFE_throws _ _ _ _ Hp1 Hne Hu),
          (fetch_IIFE_throws _ _ _ _ Hp2 Hne Hu).
        rewrite Hs. reflexivity.
  - intros agent1 agent2 H1 H2.
    destruct (env_cases env1) as [Hnone | (proxy & Hp1 & Hne)].
    + rewrite (fetch_IIFE_no_proxy env1) by exact Hnone.
      rewrite (fetch_IIFE_no_proxy env2) by (rewrite <- Hp; exact Hnone).
      rewrite Hs. do 3 eexists. repeat split; auto.
    + assert (Hp2 : proxy_of env2 = Some proxy) by (rewrite <- Hp; exact Hp1).
      destruct (new_URL proxy) as [u|e] eqn:Hu.
      * destruct (class_of_scheme_cases (str_replace ":" "" (protocol u)))
          as [[Hk Hc] | [(Hk & Hh & Hc) | (Hk & Hh & Hc)]].
        -- rewrite (fetch_IIFE_socks _ _ _ _ Hp1 Hne Hu Hk),
             (fetch_IIFE_socks _ _ _ _ Hp2 Hne Hu Hk).
           unfold after_construction. rewrite Hs.
           destruct (new_ProxyAgent proxy); do 3 eexists; repeat split; auto.
        -- rewrite (fetch_IIFE_http _ _ _ _ Hp1 Hne Hu Hk Hh),
             (fetch_IIFE_http _ _ _ _ Hp2 Hne Hu Hk Hh).
           unfold after_construction. rewrite <- Hs, H1, H2.
           destruct (IS_STANDALONE env1); do 3 eexists; repeat split; auto.
        -- rewrite (fetch_IIFE_unsupported _ _ _ _ Hp1 Hne Hu Hk Hh),
             (fetch_IIFE_unsupported _ _ _ _ Hp2 Hne Hu Hk Hh).
           do 3 eexists. repeat split; auto.
      * rewrite (fetch_IIFE_throws _ _ _ _ Hp1 Hne Hu),
          (fetch_IIFE_throws _ _ _ _ Hp2 Hne Hu).
        rewrite Hs. do 3 eexists. repeat split; auto.
Qed.

(** C6. The proxy URL used for selection is the first non-empty value among
    https_proxy, HTTPS_PROXY, http_proxy, HTTP_PROXY, in this order: either
    HTTPS variable, when non-empty, wins over both HTTP variables, and in each
    pair the lower-case name wins over the upper-case one. *)
Theorem proxy_is_first_non_empty (env : Env) :
  used_proxy (proxy_of env)
  = first_non_empty [env !! "https_proxy"; env !! "HTTPS_PROXY";
                     env !! "http_proxy"; env !! "HTTP_PROXY"]
  /\ proxy_of env
     = (if truthy (env !! "https_proxy") then env !! "https_proxy"
        else if truthy (env !! "HTTPS_PROXY") then env !! "HTTPS_PROXY"
        else if truthy (env !! "http_proxy") then env !! "http_proxy"
        else env !! "HTTP_PROXY").
Proof.
  unfold used_proxy, proxy_of, js_or, first_non_empty.
  destruct (truthy (env !! "https_proxy")) eqn:E1; rewrite ?E1.
  { split; reflexivity. }
  destruct (truthy (env !! "HTTPS_PROXY")) eqn:E2; rewrite ?E2.
  { split; reflexivity. }
  destruct (truthy (env !! "http_proxy")) eqn:E3; rewrite ?E3.
  { split; reflexivity. }
  destruct (truthy (env !! "HTTP_PROXY")) eqn:E4; split; reflexivity.
Qed.


(** *** The axios settings *)

(** The scheme class of an environment is unique. *)
Lemma proxy_class_socks_inv env proxy :
  proxy_class new_URL env class_socks proxy ->
  exists u,
    proxy_of env = Some proxy /\ proxy <> "" /\ new_URL proxy = Normal u
    /\ is_socks (str_replace ":" "" (protocol u)) = true.
Proof.
  intros H. destruct (proxy_class_inv _ _ _ _ H) as [[Hc _] | (u & Hp & Hne & Hu & Hc)];
    [discriminate Hc|].
  exists u. repeat split; try assumption.
  destruct (class_of_scheme_cases (str_replace ":" "" (protocol u)))
    as [[Hs _] | [(_ & _ & Hc') | (_ & _ & Hc')]]; [exact Hs | congruence | congruence].
Qed.

(** C3, as the code has it. The configuration that routes through the
    exported [fetch] holds the fetch adapter under [adapter], the exported
    [fetch] under [fetch], and nothing else.  [getAxiosSettings()] returns it
    or the empty configuration, and returns it exactly when the proxy URL
    parses with a SOCKS scheme or the process is standalone.  Whenever the
    exported [fetch] is backed by something else than the host global fetch,
    the routing configuration is returned.  The converse fails in two cases
    only, in which the routing configuration comes with the host global fetch:
    standalone with a proxy URL of unsupported scheme, and embedded with a
    SOCKS proxy whose [ProxyAgent] could not be constructed. *)
Theorem axios_settings_and_facade env st st0 :
  (fetch_adapter_settings !! "adapter" = Some (VString "fetch")
   /\ fetch_adapter_settings !! "fetch" = Some VExportedFetch
   /\ (forall k, is_Some (fetch_adapter_settings !! k) -> k = "adapter" \/ k = "fetch")
   /\ fetch_adapter_settings <> ∅)
  /\ exists settings st' baseFetch st0',
      getAxiosSettings new_URL env st = (Normal settings, st')
      /\ fetch_IIFE new_URL new_ProxyAgent new_EnvHttpProxyAgent env st0
         = (Normal baseFetch, st0')
      /\ (settings = fetch_adapter_settings \/ settings = ∅)
      /\ (settings = fetch_adapter_settings
          <-> (exists proxy, proxy_class new_URL env class_socks proxy)
              \/ IS_STANDALONE env = true)
      /\ (baseFetch <> globalThis_fetch -> settings = fetch_adapter_settings)
      /\ (settings = fetch_adapter_settings -> baseFetch = globalThis_fetch ->
          (IS_STANDALONE env = true
           /\ exists proxy, proxy_class new_URL env class_unsupported proxy)
          \/ (IS_STANDALONE env = false
              /\ exists proxy error,
                  proxy_class new_URL env class_socks proxy
                  /\ new_ProxyAgent proxy = Throw error)).
Proof.
  pose proof fetch_adapter_settings_not_empty as Hne0.
  split.
  { split; [reflexivity|]. split; [reflexivity|]. split; [|exact Hne0].
    intros k [v Hk]. unfold fetch_adapter_settings in Hk.
    destruct (decide (k = "adapter")) as [-> | H1]; [left; reflexivity|].
    destruct (decide (k = "fetch")) as [-> | H2]; [right; reflexivity|].
    rewrite lookup_insert_ne in Hk by congruence.
    rewrite lookup_singleton_ne in Hk by congruence. discriminate Hk. }
  assert (Hempty : ∅ <> fetch_adapter_settings) by congruence.
  destruct (env_cases env) as [Hnone | (proxy & Hp & Hne)].
  - assert (Hnosocks : ~ exists proxy, proxy_class new_URL env class_socks proxy).
    { intros [q Hq]. destruct (proxy_class_socks_inv _ _ Hq) as (u & Hq1 & Hq2 & _).
      rewrite (truthy_Some_ne _ _ Hq1 Hq2) in Hnone. discriminate Hnone. }
    rewrite (getAxiosSettings_no_proxy _ _ Hnone), (fetch_IIFE_no_proxy _ _ Hnone).
    unfold settings_after_proxy_check.
    destruct (IS_STANDALONE env); do 4 eexists;
      (split; [reflexivity|]); (split; [reflexivity|]); simpl.
    + repeat split; auto; discriminate.
    + repeat split; auto; try tauto; try congruence.
      intros [Hq | Hq]; [tauto | discriminate].
  - destruct (new_URL proxy) as [u|e] eqn:Hu.
    + destruct (class_of_scheme_cases (str_replace ":" "" (protocol u)))
        as [[Hs Hc] | [(Hs & Hh & Hc) | (Hs & Hh & Hc)]].
      * assert (Hclass : proxy_class new_URL env class_socks proxy).
        { rewrite <- Hc. exact (proxy_parsed new_URL env proxy u Hp Hne Hu). }
        rewrite (getAxiosSettings_socks _ _ _ _ Hp Hne Hu Hs),
          (fetch_IIFE_socks _ _ _ _ Hp Hne Hu Hs).
        unfold settings_after_proxy_check, after_construction.
        destruct (new_ProxyAgent proxy) as [d|err] eqn:Hd;
          destruct (IS_STANDALONE env); do 4 eexists;
          (split; [reflexivity|]); (split; [reflexivity|]); simpl;
          (split; [auto|]); (split; [split; eauto|]); (split; [auto|]);
          intros _ Hb; try discriminate Hb.
        right. split; [reflexivity|]. exists proxy, err. split; assumption.
      * assert (Hnosocks : ~ exists proxy, proxy_class new_URL env class_socks proxy).
        { intros [q Hq]. destruct (proxy_class_socks_inv _ _ Hq) as (u' & Hq1 & _ & Hq3 & Hq4).
          congruence. }
        rewrite (getAxiosSettings_not_socks _ _ _ _ Hp Hne Hu Hs),
          (fetch_IIFE_http _ _ _ _ Hp Hne Hu Hs Hh).
        unfold settings_after_proxy_check, after_construction.
        destruct (IS_STANDALONE env).
        -- destruct (new_EnvHttpProxyAgent env) as [d|err]; do 4 eexists;
             (split; [reflexivity|]); (split; [reflexivity|]); simpl;
             repeat split; auto; discriminate.
        -- do 4 eexists; (split; [reflexivity|]); (split; [reflexivity|]); simpl.
           repeat split; auto; try tauto; try congruence.
           intros [Hq | Hq]; [tauto | discriminate].
      * assert (Hnosocks : ~ exists proxy, proxy_class new_URL env class_socks proxy).
        { intros [q Hq]. destruct (proxy_class_socks_inv _ _ Hq) as (u' & Hq1 & _ & Hq3 & Hq4).
          congruence. }
        rewrite (getAxiosSettings_not_socks _ _ _ _ Hp Hne Hu Hs),
          (fetch_IIFE_unsupported _ _ _ _ Hp Hne Hu Hs Hh).
        unfold settings_after_proxy_check.
        assert (Hclass : proxy_class new_URL env class_unsupported proxy).
        { rewrite <- Hc. exact (proxy_parsed new_URL env proxy u Hp Hne Hu). }
        destruct (IS_STANDALONE env); do 4 eexists;
          (split; [reflexivity|]); (split; [reflexivity|]); simpl.
        -- repeat split; eauto.
        -- repeat split; auto; try tauto; try congruence.
           intros [Hq | Hq]; [tauto | discriminate].
    + assert (Hnosocks : ~ exists proxy, proxy_class new_URL env class_socks proxy).
      { intros [q Hq]. destruct (proxy_class_socks_inv _ _ Hq) as (u' & Hq1 & _ & Hq3 & _).
        congruence. }
      rewrite (getAxiosSettings_throws _ _ _ _ Hp Hne Hu),
        (fetch_IIFE_throws _ _ _ _ Hp Hne Hu).
      unfold settings_after_proxy_check.
      destruct (IS_STANDALONE env); do 4 eexists;
        (split; [reflexivity|]); (split; [reflexivity|]); simpl.
      * repeat split; auto; discriminate.
      * repeat split; auto; try tauto; try congruence.
        intros [Hq | Hq]; [tauto | discriminate].
Qed.

(** C7, as the code has it. [getAxiosSettings()] returns normally in every
    environment and from every state, with the routing configuration or the
    empty one, and leaves the module variables alone.  When the proxy URL
    fails to parse, the inner handler logs one warning and the result is
    decided by the deployment mode: the routing configuration when standalone,
    the empty configuration when embedded.  An error that leaves the body of
    the outer [try] is turned by the outer handler into one warning and the
    empty configuration. *)
Theorem getAxiosSettings_never_throws env st :
  (exists settings st',
      getAxiosSettings new_URL env st = (Normal settings, st')
      /\ (settings = fetch_adapter_settings \/ settings = ∅)
      /\ mockFetch st' = mockFetch st
      /\ configuredDispatcher st' = configuredDispatcher st)
  /\ (forall proxy e,
        proxy_of env = Some proxy -> proxy <> "" -> new_URL proxy = Throw e ->
        exists st',
          getAxiosSettings new_URL env st
          = (Normal (if IS_STANDALONE env then fetch_adapter_settings else ∅), st')
          /\ warnings (trace st') = S (warnings (trace st)))
  /\ (forall (body : M JsObject) e st2,
        body st = (Throw e, st2) ->
        Eff.try_catch body getAxiosSettings_catch st
        = (Normal ∅,
           log_event (console_warn "Failed to configure axios settings, using default:"
                        (Some e)) st2)).
Proof.
  split; [|split].
  - destruct (env_cases env) as [Hnone | (proxy & Hp & Hne)].
    + rewrite (getAxiosSettings_no_proxy _ _ Hnone). unfold settings_after_proxy_check.
      destruct (IS_STANDALONE env); do 2 eexists; (split; [reflexivity|]); auto.
    + destruct (new_URL proxy) as [u|e] eqn:Hu.
      * destruct (is_socks (str_replace ":" "" (protocol u))) eqn:Hs.
        -- rewrite (getAxiosSettings_socks _ _ _ _ Hp Hne Hu Hs).
           unfold settings_after_proxy_check.
           destruct (IS_STANDALONE env); do 2 eexists; (split; [reflexivity|]); auto.
        -- rewrite (getAxiosSettings_not_socks _ _ _ _ Hp Hne Hu Hs).
           unfold settings_after_proxy_check.
           destruct (IS_STANDALONE env); do 2 eexists; (split; [reflexivity|]); auto.
      * rewrite (getAxiosSettings_throws _ _ _ _ Hp Hne Hu).
        unfold settings_after_proxy_check.
        destruct (IS_STANDALONE env); do 2 eexists; (split; [reflexivity|]); auto.
  - intros proxy e Hp Hne He.
    rewrite (getAxiosSettings_throws _ _ _ _ Hp Hne He).
    unfold settings_after_proxy_check.
    destruct (IS_STANDALONE env); eexists; (split; [reflexivity|]);
      rewrite !warnings_log_event; simpl; lia.
  - intros body e st2 H. unfold getAxiosSettings_catch. eff_unfold. rewrite H.
    reflexivity.
Qed.

End Properties.

(** *** The exported fetch and the override hook *)

Lemma invoke_run f input init st :
  exists st',
    invoke f input init st = (Normal (returned_by f input init), st')
    /\ trace st' = (trace st ++ calls_of f input init st)%list
    /\ mockFetch st' = mockFetch st
    /\ configuredDispatcher st' = configuredDispatcher st.
Proof.
  unfold invoke, calls_of. eff_unfold.
  destruct f; eexists; (split; [reflexivity|]); simpl; repeat split.
  rewrite <- app_assoc. reflexivity.
Qed.

Lemma settle_returns {T} (p : promise) (o : outcome T) st :
  exists o' st', settle p o st = (Normal o', st').
Proof.
  revert o st. induction p as [id | q IH k]; intros o st; simpl.
  - do 2 eexists. reflexivity.
  - destruct (IH o st) as (o' & st' & E). eff_unfold. rewrite E.
    destruct (k st') as [[[]|e] st'']; do 2 eexists; reflexivity.
Qed.


Section Override.
Context {T : Type}.

End Override.

(** ** The properties at concrete environments *)

(** http_proxy=http://proxy.local:3128, standalone: the arrow function next
    to the [EnvHttpProxyAgent] that found this proxy in the environment, after
    one line on the console. *)
Lemma transport_selection_http_proxy_standalone :
  proxy_class WHATWG.parse env_http_standalone class_http "http://proxy.local:3128"
  /\ exists baseFetch st',
      fetch_IIFE_on_node env_http_standalone module_start = (Normal baseFetch, st')
      /\ mockFetch st' = None
      /\ baseFetch = dispatcherFetch
      /\ configuredDispatcher st'
         = Some (EnvHttpProxyAgent (Some "http://proxy.local:3128") None "")
      /\ exists line, trace st' = [console_log line].
Proof.
  assert (H : proxy_class WHATWG.parse env_http_standalone class_http
                "http://proxy.local:3128").
  { exact (proxy_parsed WHATWG.parse env_http_standalone "http://proxy.local:3128"
             {| protocol := "http:"; host := "proxy.local:3128" |}
             eq_refl ltac:(discriminate) eq_refl). }
  split; [exact H|].
  exact (transport_selection_follows_decision_table WHATWG.parse (Undici.new_ProxyAgent true) (Undici.new_EnvHttpProxyAgent true)
           env_http_standalone module_start _ _ H).
Defined.

(** https_proxy=http://proxy.local:3128 and http_proxy=not-a-url, standalone:
    the table asks for an [EnvHttpProxyAgent]; the agent cannot be built on
    http_proxy, and after the announcement and a warning undici's plain fetch
    is selected, without dispatcher. *)
Lemma agent_construction_failure_leaves_the_table :
  proxy_class WHATWG.parse env_broken_http_proxy class_http "http://proxy.local:3128"
  /\ decision_table class_http (IS_STANDALONE env_broken_http_proxy)
       "http://proxy.local:3128" = via_EnvHttpProxyAgent
  /\ Undici.new_EnvHttpProxyAgent true env_broken_http_proxy = Throw WHATWG.invalid_URL
  /\ Undici.new_EnvHttpProxyAgent false env_broken_http_proxy = Throw WHATWG.invalid_URL
  /\ fetch_IIFE_on_node env_broken_http_proxy module_start
     = (Normal undiciFetch,
        log_event (console_warn "Failed to configure proxy agent, using default fetch:"
                     (Some WHATWG.invalid_URL))
          (log_event (console_log
             "[net] Configuring HTTP/HTTPS proxy from environment variables")
             module_start))
  /\ configuredDispatcher (snd (fetch_IIFE_on_node env_broken_http_proxy module_start))
     = None
  /\ transport_of undiciFetch (snd (fetch_IIFE_on_node env_broken_http_proxy module_start))
     <> Some (decision_table class_http (IS_STANDALONE env_broken_http_proxy)
                "http://proxy.local:3128").
Proof.
  split.
  { exact (proxy_parsed WHATWG.parse env_broken_http_proxy "http://proxy.local:3128"
             {| protocol := "http:"; host := "proxy.local:3128" |}
             eq_refl ltac:(discriminate) eq_refl). }
  repeat (split; [vm_compute; reflexivity|]).
  vm_compute. discriminate.
Qed.

(** https_proxy=ftp://proxy:21, embedded: the host global fetch and one
    warning. *)
Lemma unsupported_scheme_ftp :
  WHATWG.parse "ftp://proxy:21" = Normal {| protocol := "ftp:"; host := "proxy" |}
  /\ exists st' message,
      fetch_IIFE_on_node env_ftp_embedded module_start = (Normal globalThis_fetch, st')
      /\ trace st' = [console_warn message None]
      /\ warnings (trace st') = 1
      /\ configuredDispatcher st' = None
      /\ mockFetch st' = None.
Proof.
  split; [reflexivity|].
  refine (unsupported_scheme_keeps_default_fetch WHATWG.parse (Undici.new_ProxyAgent true) (Undici.new_EnvHttpProxyAgent true) env_ftp_embedded
            module_start "ftp://proxy:21" {| protocol := "ftp:"; host := "proxy" |}
            eq_refl _ eq_refl _).
  - discriminate.
  - apply (bool_decide_unpack _). vm_compute. exact I.
Defined.

(** https_proxy=not-a-url, standalone: undici's plain fetch and one warning,
    as with no proxy at all. *)
Lemma malformed_proxy_not_a_url :
  WHATWG.parse "not-a-url" = Throw WHATWG.invalid_URL
  /\ exists baseFetch st',
      fetch_IIFE_on_node env_malformed_standalone module_start = (Normal baseFetch, st')
      /\ trace st'
         = [console_warn "Failed to configure proxy agent, using default fetch:"
              (Some WHATWG.invalid_URL)]
      /\ warnings (trace st') = 1
      /\ configuredDispatcher st' = None
      /\ mockFetch st' = None
      /\ forall env0,
           truthy (proxy_of env0) = false ->
           IS_STANDALONE env0 = IS_STANDALONE env_malformed_standalone ->
           fetch_IIFE_on_node env0 module_start = (Normal baseFetch, module_start)
           /\ transport_of baseFetch module_start = transport_of baseFetch st'.
Proof.
  split; [reflexivity|].
  refine (malformed_proxy_falls_back_to_no_proxy WHATWG.parse (Undici.new_ProxyAgent true) (Undici.new_EnvHttpProxyAgent true)
            env_malformed_standalone
            module_start "not-a-url" WHATWG.invalid_URL eq_refl _ eq_refl).
  discriminate.
Defined.

(** IS_STANDALONE=1 and no proxy variable: undici's fetch, state untouched. *)
Lemma standalone_without_proxy_at_module_start :
  fetch_IIFE_on_node env_standalone module_start = (Normal undiciFetch, module_start)
  /\ transport_of undiciFetch module_start = Some plain_undici_fetch
  /\ forall input init,
       mockFetch module_start = None ->
       fetch undiciFetch input init module_start
       = (Normal (returned_by undiciFetch input init),
          log_event (call undiciFetch input init) module_start).
Proof.
  exact (standalone_without_proxy_selects_plain_undici WHATWG.parse (Undici.new_ProxyAgent true) (Undici.new_EnvHttpProxyAgent true) env_standalone
           module_start eq_refl eq_refl eq_refl eq_refl eq_refl).
Defined.

(** http_proxy=http://proxy.local:3128, standalone, with and without
    NODE_EXTRA_CA_CERTS: the agent is constructed and finds the same in both
    environments, so that initialisation and settings are the same. *)
Lemma variable_outside_the_agent_is_not_read :
  env_http_standalone_ca !! "NODE_EXTRA_CA_CERTS"
  <> env_http_standalone !! "NODE_EXTRA_CA_CERTS"
  /\ configuredDispatcher (snd (fetch_IIFE_on_node env_http_standalone module_start))
     = Some (EnvHttpProxyAgent (Some "http://proxy.local:3128") None "")
  /\ forall st,
      getAxiosSettings WHATWG.parse env_http_standalone_ca st
      = getAxiosSettings WHATWG.parse env_http_standalone st
      /\ fetch_IIFE_on_node env_http_standalone_ca st
         = fetch_IIFE_on_node env_http_standalone st.
Proof.
  split; [vm_compute; discriminate|]. split; [vm_compute; reflexivity|].
  intros st.
  assert (H : forall k, k ∈ read_variables ->
                        env_http_standalone_ca !! k = env_http_standalone !! k).
  { intros k Hk. unfold read_variables in Hk.
    repeat (apply elem_of_cons in Hk; destruct Hk as [-> | Hk]; [vm_compute; reflexivity|]).
    apply elem_of_nil in Hk. destruct Hk. }
  pose proof (selection_reads_only_five_variables WHATWG.parse (Undici.new_ProxyAgent true) (Undici.new_EnvHttpProxyAgent true)
                env_http_standalone_ca env_http_standalone H st) as (H1 & _ & H3 & _ & _).
  split; [exact H1|]. apply H3. vm_compute. reflexivity.
Defined.

(** The same environment with and without no_proxy: the five variables agree,
    and the [EnvHttpProxyAgent] behind the transport is not the same. *)
Lemma no_proxy_reaches_the_dispatcher :
  (forall k, k ∈ read_variables ->
             env_http_standalone_no_proxy !! k = env_http_standalone !! k)
  /\ fst (fetch_IIFE_on_node env_http_standalone module_start) = Normal dispatcherFetch
  /\ configuredDispatcher (snd (fetch_IIFE_on_node env_http_standalone module_start))
     = Some (EnvHttpProxyAgent (Some "http://proxy.local:3128") None "")
  /\ configuredDispatcher
       (snd (fetch_IIFE_on_node env_http_standalone_no_proxy module_start))
     = Some (EnvHttpProxyAgent (Some "http://proxy.local:3128") None "localhost")
  /\ fetch_IIFE_on_node env_http_standalone_no_proxy module_start
     <> fetch_IIFE_on_node env_http_standalone module_start.
Proof.
  split.
  { intros k Hk. unfold read_variables in Hk.
    repeat (apply elem_of_cons in Hk; destruct Hk as [-> | Hk]; [vm_compute; reflexivity|]).
    apply elem_of_nil in Hk. destruct Hk. }
  repeat (split; [vm_compute; reflexivity|]).
  vm_compute. discriminate.
Qed.

(** https_proxy=ftp://proxy:21, standalone: [getAxiosSettings()] routes through
    the exported [fetch] while the exported [fetch] keeps the host global
    fetch. *)
Lemma axios_routes_through_host_backed_fetch :
  getAxiosSettings WHATWG.parse env_ftp_standalone module_start
  = (Normal fetch_adapter_settings,
     log_event (console_log "[net] Axios using fetch adapter in standalone mode")
       module_start)
  /\ fetch_IIFE_on_node env_ftp_standalone module_start
     = (Normal globalThis_fetch,
        log_event (console_warn "[net] Unsupported proxy protocol: ftp, using default fetch"
                     None) module_start)
  /\ transport_of globalThis_fetch
       (snd (fetch_IIFE_on_node env_ftp_standalone module_start))
     = Some host_global_fetch
  /\ fetch_adapter_settings !! "fetch" = Some VExportedFetch
  /\ ~ (fst (getAxiosSettings WHATWG.parse env_ftp_standalone module_start)
        = Normal fetch_adapter_settings
        <-> fst (fetch_IIFE_on_node env_ftp_standalone module_start)
            <> Normal globalThis_fetch).
Proof.
  split; [vm_compute; reflexivity|]. split; [vm_compute; reflexivity|].
  split; [reflexivity|]. split; [reflexivity|].
  intros [H _]. apply H; vm_compute; reflexivity.
Qed.

(** https_proxy=not-a-url, standalone: the proxy URL fails to parse and
    [getAxiosSettings()] returns the routing configuration, not the empty
    one. *)
Lemma axios_settings_not_empty_after_parse_error :
  proxy_of env_malformed_standalone = Some "not-a-url"
  /\ WHATWG.parse "not-a-url" = Throw WHATWG.invalid_URL
  /\ fst (getAxiosSettings WHATWG.parse env_malformed_standalone module_start)
     = Normal fetch_adapter_settings
  /\ fst (getAxiosSettings WHATWG.parse env_malformed_standalone module_start)
     <> Normal ∅.
Proof.
  split; [vm_compute; reflexivity|]. split; [vm_compute; reflexivity|].
  assert (E : fst (getAxiosSettings WHATWG.parse env_malformed_standalone module_start)
              = Normal fetch_adapter_settings) by (vm_compute; reflexivity).
  split; [exact E|]. rewrite E. intros H.
  apply fetch_adapter_settings_not_empty. congruence.
Qed.

(** IS_STANDALONE=1 and no proxy variable: initialisation constructs no
    dispatcher. *)
Lemma no_dispatcher_constructed_without_proxy :
  env_standalone !! "https_proxy" = None
  /\ env_standalone !! "HTTPS_PROXY" = None
  /\ env_standalone !! "http_proxy" = None
  /\ env_standalone !! "HTTP_PROXY" = None
  /\ IS_STANDALONE env_standalone = true
  /\ fst (fetch_IIFE_on_node env_standalone module_start) = Normal undiciFetch
  /\ ~ exists d : Dispatcher,
         configuredDispatcher (snd (fetch_IIFE_on_node env_standalone module_start))
         = Some d.
Proof.
  repeat (split; [vm_compute; reflexivity|]).
  intros [d H]. vm_compute in H. discriminate H.
Qed.

(** https_proxy=not-a-url, embedded: no throw, one warning, the empty
    configuration. *)
Lemma axios_settings_after_parse_error_embedded :
  (exists settings st',
      getAxiosSettings WHATWG.parse env_malformed_embedded module_start
      = (Normal settings, st')
      /\ (settings = fetch_adapter_settings \/ settings = ∅)
      /\ mockFetch st' = None
      /\ configuredDispatcher st' = None)
  /\ (proxy_of env_malformed_embedded = Some "not-a-url"
      /\ WHATWG.parse "not-a-url" = Throw WHATWG.invalid_URL)
  /\ exists st',
      getAxiosSettings WHATWG.parse env_malformed_embedded module_start = (Normal ∅, st')
      /\ warnings (trace st') = 1.
Proof.
  pose proof (getAxiosSettings_never_throws WHATWG.parse env_malformed_embedded
                module_start) as (H1 & H2 & _).
  split; [exact H1|]. split; [split; reflexivity|].
  refine (H2 "not-a-url" WHATWG.invalid_URL eq_refl _ eq_refl). discriminate.
Defined.



(** ** More runs on concrete inputs *)

(** http_proxy=http://proxy.local:3128, embedded: the host global fetch, no
    dispatcher, nothing logged. *)
Example http_proxy_embedded :
  fetch_IIFE_on_node env_http module_start = (Normal globalThis_fetch, module_start).
Proof. vm_compute. reflexivity. Qed.

(** The same proxy, standalone: an [EnvHttpProxyAgent] that found it. *)
Example http_proxy_standalone :
  fetch_IIFE_on_node env_http_standalone module_start
  = (Normal dispatcherFetch,
     set_configuredDispatcher (EnvHttpProxyAgent (Some "http://proxy.local:3128") None "")
       (log_event (console_log
          "[net] Configuring HTTP/HTTPS proxy from environment variables") module_start)).
Proof. vm_compute. reflexivity. Qed.

(** https_proxy=socks5://proxy.local:1080, standalone, on an undici with
    SOCKS5 support: a [ProxyAgent] on that URL.  On an undici without, the
    constructor throws and undici's plain fetch is selected. *)
Example socks5_proxy_standalone :
  fetch_IIFE_on_node env_socks5_standalone module_start
  = (Normal dispatcherFetch,
     set_configuredDispatcher (ProxyAgent "socks5://proxy.local:1080")
       (log_event (console_log "[net] Configuring SOCKS proxy: socks5://proxy.local:1080")
          module_start))
  /\ exists error,
      fetch_IIFE WHATWG.parse (Undici.new_ProxyAgent false) (Undici.new_EnvHttpProxyAgent false)
        env_socks5_standalone module_start
      = (Normal undiciFetch,
         log_event (console_warn "Failed to configure proxy agent, using default fetch:"
                      (Some error))
           (log_event (console_log "[net] Configuring SOCKS proxy: socks5://proxy.local:1080")
              module_start)).
Proof. split; [vm_compute; reflexivity|]. eexists. vm_compute. reflexivity. Qed.

(** https_proxy=socks4://proxy.local:1080, embedded: the constructor throws
    and the host global fetch stays. *)
Example socks4_proxy_embedded :
  exists error,
    fetch_IIFE_on_node env_socks4_embedded module_start
    = (Normal globalThis_fetch,
       log_event (console_warn "Failed to configure proxy agent, using default fetch:"
                    (Some error))
         (log_event (console_log "[net] Configuring SOCKS proxy: socks4://proxy.local:1080")
            module_start)).
Proof. eexists. vm_compute. reflexivity. Qed.

(** A call through a SOCKS-backed base without override passes the dispatcher
    to undici. *)
Example fetch_through_dispatcher :
  trace (snd (fetch dispatcherFetch "https://api.example.com" None
                (set_configuredDispatcher (ProxyAgent "socks5://proxy.local:1080")
                   module_start)))
  = [call dispatcherFetch "https://api.example.com" None;
     call undiciFetch "https://api.example.com"
       (Some {[ "dispatcher"
                := VDispatcher (Some (ProxyAgent "socks5://proxy.local:1080")) ]})].
Proof. reflexivity. Qed.

(** A callback that throws inside override 2, itself inside override 1. *)
Example override_around_throwing_callback :
  mockFetchForTesting (userFetch 2)
    (Eff.throw (JsError "Error" "boom") : M (value nat)) st_override_1
  = (Throw (JsError "Error" "boom"),
     set_mockFetch (Some (userFetch 1))
       (set_mockFetch (Some (userFetch 2)) st_override_1))
  /\ trace (snd (mockFetchForTesting (userFetch 2)
                   (Eff.throw (JsError "Error" "boom") : M (value nat)) st_override_1))
     = [assign_mockFetch (Some (userFetch 1)); assign_mockFetch (Some (userFetch 2));
        assign_mockFetch (Some (userFetch 1))].
Proof. split; reflexivity. Qed.

(** A callback that returns a promise: the slot still holds override 2 when
    the hook returns, and goes back to override 1 when the promise rejects. *)
Example override_around_promise :
  mockFetchForTesting (userFetch 2)
    (mret (APromise (made_by_callback 0)) : M (value nat)) st_override_1
  = (Normal (APromise (finally_of (made_by_callback 0)
                         (write_mockFetch (Some (userFetch 1))))),
     set_mockFetch (Some (userFetch 2)) st_override_1)
  /\ settle (finally_of (made_by_callback 0) (write_mockFetch (Some (userFetch 1))))
       (Rejected (JsError "Error" "boom") : outcome nat)
       (set_mockFetch (Some (userFetch 2)) st_override_1)
     = (Normal (Rejected (JsError "Error" "boom")),
        set_mockFetch (Some (userFetch 1))
          (set_mockFetch (Some (userFetch 2)) st_override_1)).
Proof. split; reflexivity. Qed.

(** ** Further properties of the module *)

Section Initialisation.
Variable new_URL : string -> completion URL.
Variable new_ProxyAgent : string -> completion Dispatcher.
Variable new_EnvHttpProxyAgent : Env -> completion Dispatcher.

(** X1. Whatever the environment holds and whatever the URL constructor and
    the dispatcher constructors do, initialisation of the exported [fetch]
    returns normally.  It never assigns the override slot and never selects a
    test replacement.  It logs at most two lines and at most one warning; two
    lines are the announcement of a dispatcher followed by the warning that
    carries the error of its constructor.  It selects the arrow function only
    together with a dispatcher, and leaves [configuredDispatcher] alone
    otherwise. *)
Theorem initialisation_is_fail_safe env st :
  exists baseFetch st' events,
    fetch_IIFE new_URL new_ProxyAgent new_EnvHttpProxyAgent env st = (Normal baseFetch, st')
    /\ mockFetch st' = mockFetch st
    /\ trace st' = (trace st ++ events)%list
    /\ length events <= 2
    /\ warnings events <= 1
    /\ (length events = 2 ->
        exists line error,
          events = [console_log line;
                    console_warn "Failed to configure proxy agent, using default fetch:"
                      (Some error)]
          /\ baseFetch = (if IS_STANDALONE env then undiciFetch else globalThis_fetch))
    /\ (forall id, baseFetch <> userFetch id)
    /\ (baseFetch = dispatcherFetch -> exists d, configuredDispatcher st' = Some d)
    /\ (baseFetch <> dispatcherFetch ->
        configuredDispatcher st' = configuredDispatcher st).
Proof.
  assert (Hconstructed : forall line c,
            exists baseFetch st' events,
              after_construction env line c st = (Normal baseFetch, st')
              /\ mockFetch st' = mockFetch st
              /\ trace st' = (trace st ++ events)%list
              /\ length events <= 2
              /\ warnings events <= 1
              /\ (length events = 2 ->
                  exists line error,
                    events = [console_log line;
                              console_warn
                                "Failed to configure proxy agent, using default fetch:"
                                (Some error)]
                    /\ baseFetch
                       = (if IS_STANDALONE env then undiciFetch else globalThis_fetch))
              /\ (forall id, baseFetch <> userFetch id)
              /\ (baseFetch = dispatcherFetch -> exists d, configuredDispatcher st' = Some d)
              /\ (baseFetch <> dispatcherFetch ->
                  configuredDispatcher st' = configuredDispatcher st)).
  { intros line [d|e]; unfold after_construction.
    - do 2 eexists. eexists [_]. simpl.
      repeat split; try (unfold warnings; simpl; lia); try discriminate; eauto.
      congruence.
    - destruct (IS_STANDALONE env); do 2 eexists; eexists [_; _];
        (split; [reflexivity|]); (split; [reflexivity|]);
        (split; [simpl; rewrite <- app_assoc; reflexivity|]);
        repeat split; try (unfold warnings; simpl; lia); try discriminate; eauto. }
  destruct (env_cases env) as [Hnone | (proxy & Hp & Hne)].
  - rewrite (fetch_IIFE_no_proxy _ _ _ _ _ Hnone).
    exists (if IS_STANDALONE env then undiciFetch else globalThis_fetch), st, [].
    rewrite app_nil_r. destruct (IS_STANDALONE env); simpl;
      repeat split; try (unfold warnings; simpl; lia); try discriminate.
  - destruct (new_URL proxy) as [u|e] eqn:Hu.
    + destruct (is_socks (str_replace ":" "" (protocol u))) eqn:Hs.
      * rewrite (fetch_IIFE_socks _ _ _ _ _ _ _ Hp Hne Hu Hs). apply Hconstructed.
      * destruct (is_http (str_replace ":" "" (protocol u))) eqn:Hh.
        -- rewrite (fetch_IIFE_http _ _ _ _ _ _ _ Hp Hne Hu Hs Hh).
           destruct (IS_STANDALONE env) eqn:Hmode.
           ++ specialize (Hconstructed
                "[net] Configuring HTTP/HTTPS proxy from environment variables"
                (new_EnvHttpProxyAgent env)).
              exact Hconstructed.
           ++ exists globalThis_fetch, st, []. rewrite app_nil_r. simpl.
              repeat split; try (unfold warnings; simpl; lia); try discriminate.
        -- rewrite (fetch_IIFE_unsupported _ _ _ _ _ _ _ Hp Hne Hu Hs Hh).
           do 2 eexists. eexists [_]. simpl.
           repeat split; try (unfold warnings; simpl; lia); try discriminate.
    + rewrite (fetch_IIFE_throws _ _ _ _ _ _ _ Hp Hne Hu).
      exists (if IS_STANDALONE env then undiciFetch else globalThis_fetch).
      eexists. eexists [_]. destruct (IS_STANDALONE env); simpl;
        repeat split; try (unfold warnings; simpl; lia); try discriminate.
Qed.
End Initialisation.

Section AfterInitialisation.
Variable new_URL : string -> completion URL.
Variable new_ProxyAgent : string -> completion Dispatcher.
Variable new_EnvHttpProxyAgent : Env -> completion Dispatcher.

Lemma dispatcherFetch_comes_with_dispatcher env st st' :
  fetch_IIFE new_URL new_ProxyAgent new_EnvHttpProxyAgent env st
  = (Normal dispatcherFetch, st') ->
  exists d, configuredDispatcher st' = Some d.
Proof.
  intros H.
  assert (Hconstructed : forall line c,
            after_construction env line c st = (Normal dispatcherFetch, st') ->
            exists d, configuredDispatcher st' = Some d).
  { intros line [d|e] E; unfold after_construction in E.
    - injection E as <-. eexists. reflexivity.
    - destruct (IS_STANDALONE env); discriminate E. }
  destruct (env_cases env) as [Hnone | (proxy & Hp & Hne)].
  - rewrite (fetch_IIFE_no_proxy _ _ _ _ _ Hnone) in H.
    destruct (IS_STANDALONE env); discriminate H.
  - destruct (new_URL proxy) as [u|e] eqn:Hu.
    + destruct (is_socks (str_replace ":" "" (protocol u))) eqn:Hs.
      * rewrite (fetch_IIFE_socks _ _ _ _ _ _ _ Hp Hne Hu Hs) in H.
        exact (Hconstructed _ _ H).
      * destruct (is_http (str_replace ":" "" (protocol u))) eqn:Hh.
        -- rewrite (fetch_IIFE_http _ _ _ _ _ _ _ Hp Hne Hu Hs Hh) in H.
           destruct (IS_STANDALONE env) eqn:Hmode; [|discriminate H].
           exact (Hconstructed _ _ H).
        -- rewrite (fetch_IIFE_unsupported _ _ _ _ _ _ _ Hp Hne Hu Hs Hh) in H.
           discriminate H.
    + rewrite (fetch_IIFE_throws _ _ _ _ _ _ _ Hp Hne Hu) in H.
      destruct (IS_STANDALONE env); discriminate H.
Qed.

(** X2. When initialisation selected the arrow function and no override is
    installed, a call of the exported [fetch] calls undici's fetch once, with
    the same target, with the dispatcher constructed at initialisation under
    [dispatcher] (replacing one the caller may have given) and with every
    other option of the caller unchanged. *)
Theorem dispatcher_is_handed_to_undici env st st' input init :
  fetch_IIFE new_URL new_ProxyAgent new_EnvHttpProxyAgent env st = (Normal dispatcherFetch, st') ->
  mockFetch st' = None ->
  exists d options st'',
    configuredDispatcher st' = Some d
    /\ fetch dispatcherFetch input init st'
       = (Normal (returned_by dispatcherFetch input init), st'')
    /\ trace st'' = (trace st' ++ [call dispatcherFetch input init;
                                  call undiciFetch input (Some options)])%list
    /\ options !! "dispatcher" = Some (VDispatcher (Some d))
    /\ (forall k, k <> "dispatcher" -> options !! k = default ∅ init !! k)
    /\ mockFetch st'' = None
    /\ configuredDispatcher st'' = Some d.
Proof.
  intros Hinit Hmock.
  destruct (dispatcherFetch_comes_with_dispatcher env st st' Hinit) as [d Hcd].
  exists d, (<["dispatcher" := VDispatcher (Some d)]> (default ∅ init)).
  exists (log_event (call undiciFetch input
                       (Some (<["dispatcher" := VDispatcher (Some d)]> (default ∅ init))))
            (log_event (call dispatcherFetch input init) st')).
  split; [exact Hcd|].
  split.
  { unfold fetch, invoke. eff_unfold. rewrite Hmock. simpl. rewrite Hcd. reflexivity. }
  split; [simpl; rewrite <- app_assoc; reflexivity|].
  split; [apply lookup_insert_eq|].
  split; [|split; [exact Hmock | exact Hcd]].
  intros k Hk. apply lookup_insert_ne. congruence.
Qed.

(** X3. The axios settings do not depend on the module state: from any two
    states the same environment gives the same configuration, a second call
    gives what the first gave, and each call logs one or two lines. *)
Theorem axios_settings_ignore_module_state env st1 st2 :
  fst (getAxiosSettings new_URL env st1) = fst (getAxiosSettings new_URL env st2)
  /\ fst (getAxiosSettings new_URL env (snd (getAxiosSettings new_URL env st1)))
     = fst (getAxiosSettings new_URL env st1)
  /\ exists events,
      trace (snd (getAxiosSettings new_URL env st1)) = (trace st1 ++ events)%list
      /\ 1 <= length events <= 2.
Proof.
  assert (H : forall st, exists r events,
             getAxiosSettings new_URL env st
             = (r, {| mockFetch := mockFetch st;
                      configuredDispatcher := configuredDispatcher st;
                      trace := (trace st ++ events)%list |})
             /\ 1 <= length events <= 2
             /\ forall st0, fst (getAxiosSettings new_URL env st0) = r).
  { intros st.
    destruct (env_cases env) as [Hnone | (proxy & Hp & Hne)].
    - exists (fst (settings_after_proxy_check env false st)).
      destruct (IS_STANDALONE env) eqn:Hs; eexists [_];
        (split; [rewrite (getAxiosSettings_no_proxy _ _ _ Hnone);
                 unfold settings_after_proxy_check; rewrite Hs; reflexivity|]);
        (split; [simpl; lia|]); intros st0;
        rewrite (getAxiosSettings_no_proxy _ _ _ Hnone);
        unfold settings_after_proxy_check; rewrite Hs; reflexivity.
    - destruct (new_URL proxy) as [u|e] eqn:Hu.
      + destruct (is_socks (str_replace ":" "" (protocol u))) eqn:Hk.
        * exists (Normal fetch_adapter_settings).
          destruct (IS_STANDALONE env) eqn:Hs; [eexists [_; _] | eexists [_]];
            (split; [rewrite (getAxiosSettings_socks _ _ _ _ _ Hp Hne Hu Hk);
                     unfold settings_after_proxy_check, log_event; rewrite Hs; simpl;
                     rewrite <- ?app_assoc; reflexivity|]);
            (split; [simpl; lia|]); intros st0;
            rewrite (getAxiosSettings_socks _ _ _ _ _ Hp Hne Hu Hk);
            unfold settings_after_proxy_check; rewrite Hs; reflexivity.
        * exists (fst (settings_after_proxy_check env false st)).
          destruct (IS_STANDALONE env) eqn:Hs; eexists [_];
            (split; [rewrite (getAxiosSettings_not_socks _ _ _ _ _ Hp Hne Hu Hk);
                     unfold settings_after_proxy_check; rewrite Hs; reflexivity|]);
            (split; [simpl; lia|]); intros st0;
            rewrite (getAxiosSettings_not_socks _ _ _ _ _ Hp Hne Hu Hk);
            unfold settings_after_proxy_check; rewrite Hs; reflexivity.
      + exists (fst (settings_after_proxy_check env false st)).
        destruct (IS_STANDALONE env) eqn:Hs; eexists [_; _];
          (split; [rewrite (getAxiosSettings_throws _ _ _ _ _ Hp Hne Hu);
                   unfold settings_after_proxy_check, log_event; rewrite Hs; simpl;
                   rewrite <- ?app_assoc; reflexivity|]);
          (split; [simpl; lia|]); intros st0;
          rewrite (getAxiosSettings_throws _ _ _ _ _ Hp Hne Hu);
          unfold settings_after_proxy_check; rewrite Hs; reflexivity. }
  destruct (H st1) as (r & events & E & Hlen & Hr).
  split; [rewrite !Hr; reflexivity|]. split; [rewrite !Hr; reflexivity|].
  exists events. rewrite E. split; [reflexivity | exact Hlen].
Qed.
End AfterInitialisation.

Section AsyncOverrides.
Context {T : Type}.

(** X4. Two overrides whose callbacks return promises, the second installed
    while the first is pending: when the promises settle in the reverse order
    of installation, the slot goes back to the first override and then to its
    value from before both, and each returned promise settles as the callback's
    promise did. *)
Theorem nested_async_overrides_restore (fA fB : fn) (idA idB : nat)
    (oA oB : outcome T) (st : State) :
  exists pA pB s1 s2 s3 s4,
    mockFetchForTesting (T:=T) fA (mret (APromise (made_by_callback idA))) st
    = (Normal (APromise pA), s1)
    /\ mockFetchForTesting (T:=T) fB (mret (APromise (made_by_callback idB))) s1
       = (Normal (APromise pB), s2)
    /\ mockFetch s2 = Some fB
    /\ settle pB oB s2 = (Normal oB, s3)
    /\ mockFetch s3 = Some fA
    /\ settle pA oA s3 = (Normal oA, s4)
    /\ mockFetch s4 = mockFetch st.
Proof.
  do 6 eexists. repeat (split; [reflexivity|]). reflexivity.
Qed.

(** X5. The same two overrides, settling in the order of installation: the
    first promise puts the slot back to its value from before both, and the
    second promise then installs the first override again, which stays in the
    slot although both scopes are over. *)
Theorem overlapping_async_overrides_leave_first (fA fB : fn) (idA idB : nat)
    (oA oB : outcome T) (st : State) :
  exists pA pB s1 s2 s3 s4,
    mockFetchForTesting (T:=T) fA (mret (APromise (made_by_callback idA))) st
    = (Normal (APromise pA), s1)
    /\ mockFetchForTesting (T:=T) fB (mret (APromise (made_by_callback idB))) s1
       = (Normal (APromise pB), s2)
    /\ settle pA oA s2 = (Normal oA, s3)
    /\ mockFetch s3 = mockFetch st
    /\ settle pB oB s3 = (Normal oB, s4)
    /\ mockFetch s4 = Some fA
    /\ forall baseFetch input init,
         fetch baseFetch input init s4 = invoke fA input init s4.
Proof.
  do 6 eexists. repeat (split; [reflexivity|]). reflexivity.
Qed.
End AsyncOverrides.

(** *** The redirect URI *)

Lemma append_inv_tail (a b s : string) : a ++ s = b ++ s -> a = b.
Proof.
  intros H.
  assert (E : list_ascii_of_string (a ++ s) = list_ascii_of_string (b ++ s))
    by (rewrite H; reflexivity).
  assert (Happ : forall x y, list_ascii_of_string (x ++ y)
                             = (list_ascii_of_string x ++ list_ascii_of_string y)%list).
  { intros x y. induction x as [|c x IH]; simpl; [reflexivity | rewrite IH; reflexivity]. }
  rewrite !Happ in E. apply app_inv_tail in E.
  rewrite <- (string_of_list_ascii_of_string a), <- (string_of_list_ascii_of_string b), E.
  reflexivity.
Qed.

(** X6. The redirect URI is the effective scheme of the host, never empty,
    followed by [://alsritter.cline-fork]; two hosts get the same URI exactly
    when their effective schemes are equal, so that a host without a scheme, or
    with an empty one, gets the URI of [vscode]. *)
Theorem redirect_uri_identifies_the_scheme (v1 v2 : option string) :
  HostBridge.value (HostBridge.getIdeRedirectUri v1)
  = effective_scheme v1 ++ "://alsritter.cline-fork"
  /\ effective_scheme v1 <> ""
  /\ (HostBridge.value (HostBridge.getIdeRedirectUri v1)
      = HostBridge.value (HostBridge.getIdeRedirectUri v2)
      <-> effective_scheme v1 = effective_scheme v2).
Proof.
  assert (Hv : forall v, HostBridge.value (HostBridge.getIdeRedirectUri v)
                         = effective_scheme v ++ "://alsritter.cline-fork").
  { intros v. unfold HostBridge.getIdeRedirectUri, effective_scheme, js_or.
    destruct v as [[|c s]|]; reflexivity. }
  split; [apply Hv|]. split.
  - unfold effective_scheme. destruct v1 as [[|c s]|]; simpl; discriminate.
  - rewrite !Hv. split; [apply append_inv_tail | intros ->; reflexivity].
Qed.

(** *** The AIhubmix handler: the loop over the entries *)

Ltac completion_unfold :=
  cbv beta iota zeta delta
    [mbind mret completion_bind completion_ret Aihubmix.and_then Aihubmix.or_then] in *.

Section AihubmixLoop.
Variable trim : string -> string.

Lemma for_of_app l1 l2 m :
  Aihubmix.for_of trim (l1 ++ l2) m
  = match Aihubmix.for_of trim l1 m with
    | Normal m1 => Aihubmix.for_of trim l2 m1
    | Throw e => Throw e
    end.
Proof.
  revert m. induction l1 as [|v l1 IH]; intros m; simpl; [reflexivity|].
  completion_unfold. destruct (Aihubmix.loop_body trim m v); [apply IH | reflexivity].
Qed.

Lemma loop_body_passed_over m v :
  passed_over v -> Aihubmix.loop_body trim m v = Normal m.
Proof.
  intros (model & Hg & Hne). unfold Aihubmix.loop_body. rewrite Hg. completion_unfold.
  destruct model as [| | | |[|c s]| |]; try reflexivity.
  exfalso. exact (Hne c s eq_refl).
Qed.

Lemma trimmed_items_not_splittable name v :
  not_splittable v -> exists e, Aihubmix.trimmed_items trim name v = Throw e.
Proof.
  intros [Ht Hs]. unfold Aihubmix.trimmed_items, Aihubmix.or_else. rewrite Ht.
  destruct v; try (eexists; reflexivity); try discriminate Ht.
  exfalso. exact (Hs _ eq_refl).
Qed.

Lemma loop_body_breaks m v :
  breaks_loop v -> exists e, Aihubmix.loop_body trim m v = Throw e.
Proof.
  intros [| | ps c s Hm Hn | ps c s Hm Hn]; try (eexists; reflexivity).
  - destruct (trimmed_items_not_splittable "modalities" _ Hn) as [e He].
    exists e. unfold Aihubmix.loop_body, Aihubmix.model_info. simpl. rewrite Hm.
    completion_unfold. rewrite He. reflexivity.
  - destruct (trimmed_items_not_splittable "features" _ Hn) as [e He].
    unfold Aihubmix.loop_body, Aihubmix.model_info. simpl. rewrite Hm.
    completion_unfold.
    destruct (Aihubmix.trimmed_items trim "modalities" (Aihubmix.own_property ps "modalities"))
      as [ms|e']; [|eexists; reflexivity].
    rewrite He. eexists; reflexivity.
Qed.

(** What one turn of the loop can do to the map. *)
Lemma loop_body_cases m v m' :
  Aihubmix.loop_body trim m v = Normal m' ->
  m' = m
  \/ exists ps id info,
      v = Aihubmix.JObject ps
      /\ Aihubmix.own_property ps "model" = Aihubmix.JString id
      /\ id <> "" /\ id <> "__proto__"
      /\ Aihubmix.model_info trim v = Normal info
      /\ m' = <[id := info]> m.
Proof.
  unfold Aihubmix.loop_body. intros H.
  destruct (Aihubmix.get v "model") as [model|e] eqn:Hg; [|discriminate H].
  completion_unfold.
  destruct model as [| | | |[|c s]| |]; try (injection H as <-; left; reflexivity).
  destruct (Aihubmix.model_info trim v) as [info|e] eqn:Hi; [|discriminate H].
  injection H as <-. unfold Aihubmix.assign.
  destruct (String.eqb (String c s) "__proto__") eqn:Hp; [left; reflexivity|].
  right. destruct v; try discriminate Hg. simpl in Hg. injection Hg as Hg.
  do 3 eexists. split; [reflexivity|]. split; [exact Hg|].
  split; [discriminate|]. split; [apply String.eqb_neq; exact Hp|].
  split; reflexivity.
Qed.

(** X7. Entries that the loop passes over (numbers, strings, arrays,
    objects without [model], or with a [model] that is empty or not a string)
    change nothing: the loop gives the same result as without them. *)
Theorem passed_over_entries_do_not_matter l1 v l2 m :
  passed_over v ->
  Aihubmix.for_of trim (l1 ++ v :: l2) m = Aihubmix.for_of trim (l1 ++ l2) m.
Proof.
  intros H. rewrite !for_of_app.
  destruct (Aihubmix.for_of trim l1 m) as [m1|e]; [|reflexivity].
  simpl. rewrite (loop_body_passed_over m1 v H). reflexivity.
Qed.

(** X8. An entry with a model id other than [__proto__] whose description
    can be built replaces whatever the entries before it stored under that id:
    the last entry of an id is the one kept. *)
Theorem last_entry_of_an_id_is_kept items ps id info m m1 :
  Aihubmix.for_of trim items m = Normal m1 ->
  Aihubmix.own_property ps "model" = Aihubmix.JString id ->
  id <> "" -> id <> "__proto__" ->
  Aihubmix.model_info trim (Aihubmix.JObject ps) = Normal info ->
  Aihubmix.for_of trim (items ++ [Aihubmix.JObject ps]) m = Normal (<[id := info]> m1)
  /\ <[id := info]> m1 !! id = Some info.
Proof.
  intros Hf Hm Hne Hp Hi. split; [|apply lookup_insert_eq].
  rewrite for_of_app, Hf. simpl. unfold Aihubmix.loop_body. simpl. rewrite Hm.
  completion_unfold. destruct id as [|c s]; [congruence|]. rewrite Hi.
  unfold Aihubmix.assign. apply String.eqb_neq in Hp. rewrite Hp. reflexivity.
Qed.

Lemma for_of_breaks items v m :
  In v items -> breaks_loop v -> exists e, Aihubmix.for_of trim items m = Throw e.
Proof.
  intros Hin Hb. revert m. induction items as [|a items IH]; intros m; [destruct Hin|].
  simpl. completion_unfold. destruct Hin as [-> | Hin].
  - destruct (loop_body_breaks m v Hb) as [e He]. rewrite He. eexists; reflexivity.
  - destruct (Aihubmix.loop_body trim m a) as [m'|e]; [apply IH; exact Hin|].
    eexists; reflexivity.
Qed.

Lemma for_of_keys items m m' :
  Aihubmix.for_of trim items m = Normal m' ->
  (forall id, is_Some (m' !! id) ->
     is_Some (m !! id)
     \/ (id <> "" /\ id <> "__proto__"
         /\ exists ps, In (Aihubmix.JObject ps) items
                       /\ Aihubmix.own_property ps "model" = Aihubmix.JString id))
  /\ size m' <= size m + length items.
Proof.
  revert m. induction items as [|v items IH]; intros m H; simpl in H.
  - injection H as <-. split; [auto | simpl; lia].
  - completion_unfold.
    destruct (Aihubmix.loop_body trim m v) as [m1|e] eqn:Hb; [|discriminate H].
    destruct (IH m1 H) as [Hk Hs].
    destruct (loop_body_cases _ _ _ Hb)
      as [-> | (ps & id0 & info & -> & Hm & Hne & Hp & _ & ->)].
    + split; [|simpl; lia].
      intros id Hid. destruct (Hk id Hid) as [? | (? & ? & ps & Hin & ?)]; [auto|].
      right. repeat split; auto. exists ps. split; [right; exact Hin | assumption].
    + split.
      * intros id Hid. destruct (Hk id Hid) as [Hsome | (? & ? & ps' & Hin & ?)].
        -- destruct (decide (id0 = id)) as [-> | Hd].
           ++ right. repeat split; auto. exists ps. split; [left; reflexivity | exact Hm].
           ++ rewrite lookup_insert_ne in Hsome by exact Hd. left. exact Hsome.
        -- right. repeat split; auto. exists ps'. split; [right; exact Hin | assumption].
      * rewrite map_size_insert in Hs. simpl. destruct (m !! id0); simpl in Hs; lia.
Qed.
End AihubmixLoop.

Section AihubmixEntries.
Variable trim : string -> string.

Lemma get_of_truthy v name :
  Aihubmix.ToBoolean v = true ->
  Aihubmix.get v name = Normal (Aihubmix.get_opt v name).
Proof. destruct v; simpl; intros H; try discriminate H; reflexivity. Qed.

Lemma or_else_object_truthy p :
  Aihubmix.ToBoolean (Aihubmix.or_else p (Aihubmix.JObject [])) = true.
Proof.
  unfold Aihubmix.or_else. destruct (Aihubmix.ToBoolean p) eqn:E; [exact E | reflexivity].
Qed.

Lemma trimmed_items_throws name v e :
  Aihubmix.trimmed_items trim name v = Throw e -> not_splittable v.
Proof.
  unfold Aihubmix.trimmed_items, Aihubmix.or_else, not_splittable.
  destruct (Aihubmix.ToBoolean v) eqn:Ht; [|discriminate].
  destruct v; try discriminate; intros _; split; auto; discriminate.
Qed.

(** The description of an object can always be built when its [modalities]
    and [features] can be split. *)
Lemma model_info_returns ps ms fs :
  Aihubmix.trimmed_items trim "modalities" (Aihubmix.own_property ps "modalities") = Normal ms ->
  Aihubmix.trimmed_items trim "features" (Aihubmix.own_property ps "features") = Normal fs ->
  exists info, Aihubmix.model_info trim (Aihubmix.JObject ps) = Normal info.
Proof.
  intros Hm Hf. unfold Aihubmix.model_info. simpl. completion_unfold.
  rewrite Hm, Hf.
  rewrite !(get_of_truthy _ _ (or_else_object_truthy _)).
  repeat match goal with
         | |- context [if ?b then _ else _] => destruct b
         end; eexists; reflexivity.
Qed.

Lemma loop_body_throws m v e :
  Aihubmix.loop_body trim m v = Throw e -> breaks_loop v.
Proof.
  intros H. unfold Aihubmix.loop_body in H.
  destruct v as [| | b | x | s | l | ps]; try (constructor; fail); simpl in H;
    completion_unfold; try discriminate H.
  destruct (Aihubmix.own_property ps "model") as [| | | |[|c s]| |] eqn:Hmodel;
    try discriminate H.
  destruct (Aihubmix.trimmed_items trim "modalities" (Aihubmix.own_property ps "modalities"))
    as [ms|e1] eqn:Hm.
  - destruct (Aihubmix.trimmed_items trim "features" (Aihubmix.own_property ps "features"))
      as [fs|e2] eqn:Hf.
    + destruct (model_info_returns ps ms fs Hm Hf) as [info Hi].
      rewrite Hi in H. discriminate H.
    + exact (breaks_features ps c s Hmodel (trimmed_items_throws _ _ _ Hf)).
  - exact (breaks_modalities ps c s Hmodel (trimmed_items_throws _ _ _ Hm)).
Qed.

Lemma for_of_throws items m e :
  Aihubmix.for_of trim items m = Throw e -> exists v, In v items /\ breaks_loop v.
Proof.
  revert m. induction items as [|a items IH]; intros m H; simpl in H.
  - discriminate H.
  - completion_unfold. destruct (Aihubmix.loop_body trim m a) as [m'|e'] eqn:Ha.
    + destruct (IH m' H) as (v & Hin & Hb). exists v. split; [right; exact Hin | exact Hb].
    + exists a. split; [left; reflexivity | exact (loop_body_throws m a e' Ha)].
Qed.

(** X9. One turn of the loop throws exactly on an entry that is [null] or
    [undefined], or that has a non-empty string [model] and a [modalities] or
    [features] that is truthy and not a string (an array of strings, for
    instance).  The loop as a whole throws, and stores nothing, exactly when
    the array holds such an entry. *)
Theorem loop_throws_exactly_on_broken_entries items m :
  (forall v, (exists e, Aihubmix.loop_body trim m v = Throw e) <-> breaks_loop v)
  /\ ((exists e, Aihubmix.for_of trim items m = Throw e)
      <-> exists v, In v items /\ breaks_loop v).
Proof.
  split.
  - intros v. split; [intros [e H]; exact (loop_body_throws m v e H)|].
    apply loop_body_breaks.
  - split.
    + intros [e H]. exact (for_of_throws items m e H).
    + intros (v & Hin & Hb). exact (for_of_breaks trim items v m Hin Hb).
Qed.

(** X10. Prompt-cache support of an entry: a [cache_ratio] that is present
    and is not the number 1 (be it [null], a string or 0) reports support
    whatever the pricing; otherwise support is reported exactly when
    [pricing.cache_read] and [pricing.input] are both present and differ. *)
Theorem prompt_cache_support ps info :
  Aihubmix.model_info trim (Aihubmix.JObject ps) = Normal info ->
  let ratio := Aihubmix.own_property ps "cache_ratio" in
  let pricing := Aihubmix.or_else (Aihubmix.own_property ps "pricing") (Aihubmix.JObject []) in
  let cache_read := Aihubmix.get_opt pricing "cache_read" in
  let input := Aihubmix.get_opt pricing "input" in
  (ratio <> Aihubmix.JUndefined ->
   Aihubmix.strict_equal ratio (Aihubmix.JNumber 1) = false ->
   Aihubmix.supportsPromptCache info = true)
  /\ (ratio = Aihubmix.JUndefined
      \/ Aihubmix.strict_equal ratio (Aihubmix.JNumber 1) = true ->
      Aihubmix.supportsPromptCache info
      = negb (Aihubmix.strict_equal cache_read Aihubmix.JUndefined)
        && negb (Aihubmix.strict_equal input Aihubmix.JUndefined)
        && negb (Aihubmix.strict_equal cache_read input)).
Proof.
  intros H ratio pricing cache_read input.
  unfold Aihubmix.model_info in H. simpl in H. completion_unfold.
  destruct (Aihubmix.trimmed_items trim "modalities" (Aihubmix.own_property ps "modalities"))
    as [ms|e1]; [|discriminate H].
  destruct (Aihubmix.trimmed_items trim "features" (Aihubmix.own_property ps "features"))
    as [fs|e2]; [|discriminate H].
  rewrite !(get_of_truthy _ _ (or_else_object_truthy _)) in H.
  fold ratio pricing in H. fold cache_read input in H.
  assert (Hu : ratio <> Aihubmix.JUndefined
               <-> Aihubmix.strict_equal ratio Aihubmix.JUndefined = false).
  { destruct ratio; simpl; split; congruence. }
  split.
  - intros Hr H1. apply Hu in Hr. rewrite Hr, H1 in H. simpl in H.
    repeat match type of H with
           | context [if ?b then _ else _] => destruct b
           end; injection H as <-; reflexivity.
  - intros Hr.
    assert (E : negb (Aihubmix.strict_equal ratio Aihubmix.JUndefined)
                && negb (Aihubmix.strict_equal ratio (Aihubmix.JNumber 1)) = false).
    { destruct Hr as [-> | ->]; [reflexivity | apply andb_false_r]. }
    destruct (Aihubmix.strict_equal ratio Aihubmix.JUndefined) eqn:E1;
      destruct (Aihubmix.strict_equal ratio (Aihubmix.JNumber 1)) eqn:E2;
      try discriminate E; simpl in H;
      destruct (Aihubmix.strict_equal cache_read Aihubmix.JUndefined);
      destruct (Aihubmix.strict_equal input Aihubmix.JUndefined);
      destruct (Aihubmix.strict_equal cache_read input); simpl in H |- *;
      repeat match type of H with
             | context [if ?b then _ else _] => destruct b
             end; injection H as <-; reflexivity.
Qed.
End AihubmixEntries.

(** *** The AIhubmix handler as a whole *)

Section AihubmixHandler.
Variable trim : string -> string.
Variable new_URL : string -> completion URL.
Variable axios_get : string -> JsObject -> outcome Aihubmix.JsAny.

Lemma getAxiosSettings_returns env st :
  exists config st',
    getAxiosSettings new_URL env st = (Normal config, st')
    /\ mockFetch st' = mockFetch st
    /\ configuredDispatcher st' = configuredDispatcher st.
Proof.
  destruct (env_cases env) as [Hnone | (proxy & Hp & Hne)].
  - rewrite (getAxiosSettings_no_proxy _ _ _ Hnone). unfold settings_after_proxy_check.
    destruct (IS_STANDALONE env); do 2 eexists; (split; [reflexivity|]); auto.
  - destruct (new_URL proxy) as [u|e] eqn:Hu.
    + destruct (is_socks (str_replace ":" "" (protocol u))) eqn:Hs.
      * rewrite (getAxiosSettings_socks _ _ _ _ _ Hp Hne Hu Hs).
        unfold settings_after_proxy_check.
        destruct (IS_STANDALONE env); do 2 eexists; (split; [reflexivity|]); auto.
      * rewrite (getAxiosSettings_not_socks _ _ _ _ _ Hp Hne Hu Hs).
        unfold settings_after_proxy_check.
        destruct (IS_STANDALONE env); do 2 eexists; (split; [reflexivity|]); auto.
    + rewrite (getAxiosSettings_throws _ _ _ _ _ Hp Hne Hu).
      unfold settings_after_proxy_check.
      destruct (IS_STANDALONE env); do 2 eexists; (split; [reflexivity|]); auto.
Qed.

Lemma truthy_either_pair (env : Env) :
  truthy ((env !! "http_proxy" ||| env !! "HTTP_PROXY")
          ||| (env !! "https_proxy" ||| env !! "HTTPS_PROXY"))
  = truthy (proxy_of env).
Proof.
  unfold proxy_of, js_or.
  destruct (truthy (env !! "http_proxy")) eqn:E1;
    destruct (truthy (env !! "HTTP_PROXY")) eqn:E2;
    destruct (truthy (env !! "https_proxy")) eqn:E3;
    destruct (truthy (env !! "HTTPS_PROXY")) eqn:E4;
    rewrite ?E1, ?E2, ?E3, ?E4; reflexivity.
Qed.

(** The events of the handler up to the request. *)
Lemma handler_run env st t config st' :
  getAxiosSettings new_URL env st = (Normal config, st') ->
  let before :=
    (t ++ proxy_announcement env
       ++ [Aihubmix.handler_log ("[AIhubmix] Fetching models from: " ++ Aihubmix.url);
           Aihubmix.axios_get_call Aihubmix.url config])%list in
  Aihubmix.getAihubmixModels trim new_URL axios_get env (st, t)
  = match answer_items (axios_get Aihubmix.url config) with
    | Some items =>
        let counted :=
          (before ++ [Aihubmix.handler_log
                        ("Fetched " ++ pretty (length items)
                         ++ " AIhubmix models from API")])%list in
        match Aihubmix.for_of trim items ∅ with
        | Normal modelsMap =>
            (Normal {| Aihubmix.models := modelsMap |},
             (st', (counted ++ [Aihubmix.handler_log
                                  ("Fetched " ++ pretty (size modelsMap)
                                   ++ " AIhubmix models")])%list))
        | Throw e =>
            (Normal {| Aihubmix.models := ∅ |},
             (st', (counted ++ [Aihubmix.handler_error
                                  "Failed to fetch AIhubmix models:" e])%list))
        end
    | None =>
        match axios_get Aihubmix.url config with
        | Fulfilled data =>
            (Normal {| Aihubmix.models := ∅ |},
             (st', (before ++ [Aihubmix.handler_error_data
                                 "Invalid response from AIhubmix API:" data])%list))
        | Rejected e =>
            (Normal {| Aihubmix.models := ∅ |},
             (st', (before ++ [Aihubmix.handler_error
                                 "Failed to fetch AIhubmix models:" e])%list))
        end
    end.
Proof.
  intros Hset before. subst before.
  unfold Aihubmix.getAihubmixModels, Aihubmix.say, Aihubmix.await, answer_items,
    proxy_announcement.
  rewrite <- (truthy_either_pair env).
  destruct (truthy ((env !! "http_proxy" ||| env !! "HTTP_PROXY")
                    ||| (env !! "https_proxy" ||| env !! "HTTPS_PROXY")));
    eff_unfold; rewrite Hset; simpl;
    (destruct (axios_get Aihubmix.url config) as [data|e]; simpl;
     [destruct (Aihubmix.ToBoolean (Aihubmix.get_opt data "success"));
      [destruct (Aihubmix.get_opt data "data");
       try (rewrite <- ?app_assoc; reflexivity);
       destruct (Aihubmix.for_of trim items ∅); rewrite <- ?app_assoc; reflexivity
      |rewrite <- ?app_assoc; reflexivity]
     |rewrite <- ?app_assoc; reflexivity]).
Qed.
End AihubmixHandler.

Section AihubmixResults.
Variable trim : string -> string.
Variable new_URL : string -> completion URL.
Variable axios_get : string -> JsObject -> outcome Aihubmix.JsAny.

Abbreviation handler := (Aihubmix.getAihubmixModels trim new_URL axios_get).

Abbreviation fetching_line :=
  (Aihubmix.handler_log ("[AIhubmix] Fetching models from: " ++ Aihubmix.url)).

(** X11. The handler never rejects: in every environment, from every state
    and whatever axios does, it returns a message.  It makes exactly one
    request, to the fixed address and with the configuration that
    [getAxiosSettings()] returns, leaves the module variables of the net module
    alone, and calls [console.error] at most once, in which case the message
    holds no models. *)
Theorem getAihubmixModels_never_rejects env st t :
  exists result config st' events,
    handler env (st, t) = (Normal result, (st', (t ++ events)%list))
    /\ getAxiosSettings new_URL env st = (Normal config, st')
    /\ requests events = [(Aihubmix.url, config)]
    /\ mockFetch st' = mockFetch st
    /\ configuredDispatcher st' = configuredDispatcher st
    /\ console_errors events <= 1
    /\ (console_errors events = 1 -> Aihubmix.models result = ∅).
Proof.
  destruct (getAxiosSettings_returns new_URL env st) as (config & st' & Hset & Hm & Hd).
  rewrite (handler_run trim new_URL axios_get env st t config st' Hset).
  unfold proxy_announcement, requests, console_errors.
  destruct (answer_items (axios_get Aihubmix.url config)) as [items|].
  - destruct (Aihubmix.for_of trim items ∅) as [modelsMap|e];
      destruct (truthy (proxy_of env)); do 3 eexists; eexists (_ :: _);
        (split; [rewrite <- !app_assoc; simpl; reflexivity|]);
        (split; [exact Hset|]); simpl; repeat split; auto; try lia; discriminate.
  - destruct (axios_get Aihubmix.url config) as [data|e];
      destruct (truthy (proxy_of env)); do 3 eexists; eexists (_ :: _);
        (split; [rewrite <- !app_assoc; simpl; reflexivity|]);
        (split; [exact Hset|]); simpl; repeat split; auto; try lia.
Qed.

(** X12. The handler announces a proxy exactly when the net module sees one:
    its first line is the announcement when one of the four proxy variables is
    non-empty, and otherwise its first line is the one that names the address.
    The request follows at once. *)
Theorem handler_announces_the_proxy_the_net_module_uses env st t :
  exists result config st' rest,
    handler env (st, t)
    = (Normal result,
       (st', (t ++ proxy_announcement env
                ++ fetching_line :: Aihubmix.axios_get_call Aihubmix.url config :: rest)%list))
    /\ length (proxy_announcement env) = (if truthy (proxy_of env) then 1 else 0)
    /\ (truthy (proxy_of env) = true <->
        exists v, v <> "" /\ v ∈ omap (fun k => env !! k)
                                   ["https_proxy"; "HTTPS_PROXY"; "http_proxy"; "HTTP_PROXY"]).
Proof.
  destruct (getAxiosSettings_returns new_URL env st) as (config & st' & Hset & _ & _).
  rewrite (handler_run trim new_URL axios_get env st t config st' Hset).
  assert (Hlen : length (proxy_announcement env) = (if truthy (proxy_of env) then 1 else 0)).
  { unfold proxy_announcement. destruct (truthy (proxy_of env)); reflexivity. }
  assert (Hiff : truthy (proxy_of env) = true <->
                 exists v, v <> "" /\ v ∈ omap (fun k => env !! k)
                   ["https_proxy"; "HTTPS_PROXY"; "http_proxy"; "HTTP_PROXY"]).
  { unfold proxy_of, js_or. simpl.
    destruct (env !! "https_proxy") as [[|c1 s1]|]; simpl;
      destruct (env !! "HTTPS_PROXY") as [[|c2 s2]|]; simpl;
      destruct (env !! "http_proxy") as [[|c3 s3]|]; simpl;
      destruct (env !! "HTTP_PROXY") as [[|c4 s4]|]; simpl;
      (split;
       [ intros H; try discriminate H;
         first [ exists (String c1 s1) | exists (String c2 s2)
               | exists (String c3 s3) | exists (String c4 s4) ];
         (split; [discriminate | set_solver])
       | intros (v & Hv & Hin); try reflexivity; exfalso;
         repeat (apply elem_of_cons in Hin; destruct Hin as [-> | Hin]; [congruence|]);
         apply elem_of_nil in Hin; exact Hin ]). }
  destruct (answer_items (axios_get Aihubmix.url config)) as [items|].
  - destruct (Aihubmix.for_of trim items ∅) as [modelsMap|e]; cbv zeta;
      rewrite <- !app_assoc; simpl;
      do 4 eexists; (split; [reflexivity|]); split; assumption.
  - destruct (axios_get Aihubmix.url config) as [data|e]; cbv zeta;
      rewrite <- !app_assoc; simpl;
      do 4 eexists; (split; [reflexivity|]); split; assumption.
Qed.
(** X13. When the request is rejected, or the answer has no truthy
    [success] or no array under [data], the handler returns a message without
    models and calls [console.error] once: with the rejection, or with the
    answer it got.  No count of models is printed. *)
Theorem rejected_or_invalid_answer_gives_no_models env st t config st' :
  getAxiosSettings new_URL env st = (Normal config, st') ->
  answer_items (axios_get Aihubmix.url config) = None ->
  exists last,
    handler env (st, t)
    = (Normal {| Aihubmix.models := ∅ |},
       (st', (t ++ proxy_announcement env
                ++ [fetching_line; Aihubmix.axios_get_call Aihubmix.url config; last])%list))
    /\ last = match axios_get Aihubmix.url config with
              | Fulfilled data =>
                  Aihubmix.handler_error_data "Invalid response from AIhubmix API:" data
              | Rejected e =>
                  Aihubmix.handler_error "Failed to fetch AIhubmix models:" e
              end.
Proof.
  intros Hset Hnone.
  rewrite (handler_run trim new_URL axios_get env st t config st' Hset), Hnone.
  destruct (axios_get Aihubmix.url config) as [data|e]; cbv zeta;
    rewrite <- !app_assoc; simpl; eexists; split; reflexivity.
Qed.

(** X14. One broken entry costs the whole list: when the accepted array
    holds an entry on which the loop throws, the handler returns a message
    without models, whatever the other entries are, after printing the length
    of the array and calling [console.error] once with the error. *)
Theorem one_broken_entry_gives_no_models env st t config st' items v :
  getAxiosSettings new_URL env st = (Normal config, st') ->
  answer_items (axios_get Aihubmix.url config) = Some items ->
  In v items -> breaks_loop v ->
  exists e,
    handler env (st, t)
    = (Normal {| Aihubmix.models := ∅ |},
       (st', (t ++ proxy_announcement env
                ++ [fetching_line; Aihubmix.axios_get_call Aihubmix.url config;
                    Aihubmix.handler_log ("Fetched " ++ pretty (length items)
                                          ++ " AIhubmix models from API");
                    Aihubmix.handler_error "Failed to fetch AIhubmix models:" e])%list)).
Proof.
  intros Hset Hitems Hin Hb.
  rewrite (handler_run trim new_URL axios_get env st t config st' Hset), Hitems.
  destruct (for_of_breaks trim items v ∅ Hin Hb) as [e He]. rewrite He.
  exists e. cbv zeta. rewrite <- !app_assoc. reflexivity.
Qed.

(** X15. When no entry of the accepted array is broken, the handler returns
    the map the loop built.  Every id in it is the non-empty [model] string,
    other than [__proto__], of an object of the array; there are at most as
    many ids as entries; and the two counts printed are the length of the array
    and the number of ids. *)
Theorem accepted_answer_gives_models env st t config st' items :
  getAxiosSettings new_URL env st = (Normal config, st') ->
  answer_items (axios_get Aihubmix.url config) = Some items ->
  (forall v, In v items -> ~ breaks_loop v) ->
  exists modelsMap,
    handler env (st, t)
    = (Normal {| Aihubmix.models := modelsMap |},
       (st', (t ++ proxy_announcement env
                ++ [fetching_line; Aihubmix.axios_get_call Aihubmix.url config;
                    Aihubmix.handler_log ("Fetched " ++ pretty (length items)
                                          ++ " AIhubmix models from API");
                    Aihubmix.handler_log ("Fetched " ++ pretty (size modelsMap)
                                          ++ " AIhubmix models")])%list))
    /\ Aihubmix.for_of trim items ∅ = Normal modelsMap
    /\ size modelsMap <= length items
    /\ forall id, is_Some (modelsMap !! id) ->
         id <> "" /\ id <> "__proto__"
         /\ exists ps, In (Aihubmix.JObject ps) items
                       /\ Aihubmix.own_property ps "model" = Aihubmix.JString id.
Proof.
  intros Hset Hitems Hok.
  rewrite (handler_run trim new_URL axios_get env st t config st' Hset), Hitems.
  destruct (Aihubmix.for_of trim items ∅) as [modelsMap|e] eqn:Hf.
  - exists modelsMap. cbv zeta. rewrite <- !app_assoc.
    split; [reflexivity|]. split; [reflexivity|].
    destruct (for_of_keys trim items ∅ modelsMap Hf) as [Hk Hs].
    rewrite map_size_empty in Hs. split; [exact Hs|].
    intros id Hid. destruct (Hk id Hid) as [Hsome | H]; [|exact H].
    rewrite lookup_empty in Hsome. destruct Hsome as [x Hx]. discriminate Hx.
  - destruct (for_of_throws trim items ∅ e Hf) as (v & Hin & Hb).
    destruct (Hok v Hin Hb).
Qed.
End AihubmixResults.

(** ** The further properties at concrete inputs *)

(** After initialisation with http_proxy=http://proxy.local:3128, standalone,
    a call with a [dispatcher] of the caller's own. *)
Lemma dispatcher_is_handed_to_undici_http_proxy :
  fetch_IIFE_on_node env_http_standalone module_start
  = (Normal dispatcherFetch, st_http_standalone)
  /\ mockFetch st_http_standalone = None
  /\ exists d options st'',
      configuredDispatcher st_http_standalone = Some d
      /\ fetch dispatcherFetch "https://api.example.com"
           (Some {[ "method" := VString "POST"; "dispatcher" := VString "mine" ]})
           st_http_standalone
         = (Normal (returned_by dispatcherFetch "https://api.example.com"
                      (Some {[ "method" := VString "POST";
                               "dispatcher" := VString "mine" ]})), st'')
      /\ trace st''
         = (trace st_http_standalone
              ++ [call dispatcherFetch "https://api.example.com"
                    (Some {[ "method" := VString "POST"; "dispatcher" := VString "mine" ]});
                  call undiciFetch "https://api.example.com" (Some options)])%list
      /\ options !! "dispatcher" = Some (VDispatcher (Some d))
      /\ (forall k, k <> "dispatcher" ->
          options !! k
          = default ∅ (Some ({[ "method" := VString "POST";
                                "dispatcher" := VString "mine" ]} : JsObject)) !! k)
      /\ mockFetch st'' = None
      /\ configuredDispatcher st'' = Some d.
Proof.
  assert (H : fetch_IIFE_on_node env_http_standalone module_start
              = (Normal dispatcherFetch, st_http_standalone)) by (vm_compute; reflexivity).
  split; [exact H|]. split; [reflexivity|].
  exact (dispatcher_is_handed_to_undici WHATWG.parse (Undici.new_ProxyAgent true)
           (Undici.new_EnvHttpProxyAgent true) env_http_standalone module_start
           st_http_standalone _ _ H eq_refl).
Defined.

(** A number between two entries is passed over. *)
Lemma passed_over_number :
  passed_over (Aihubmix.JNumber 3)
  /\ Aihubmix.for_of String_trim ([entry_vision] ++ Aihubmix.JNumber 3 :: [entry_plain]) ∅
     = Aihubmix.for_of String_trim ([entry_vision] ++ [entry_plain]) ∅.
Proof.
  assert (H : passed_over (Aihubmix.JNumber 3)).
  { exists Aihubmix.JUndefined. split; [reflexivity | discriminate]. }
  split; [exact H|].
  exact (passed_over_entries_do_not_matter String_trim [entry_vision] _ [entry_plain] ∅ H).
Defined.

(** A second entry for [plain] replaces the first. *)
Lemma last_entry_of_plain_is_kept :
  exists info m1,
    Aihubmix.for_of String_trim [entry_plain; entry_vision] ∅ = Normal m1
    /\ Aihubmix.model_info String_trim
         (Aihubmix.JObject [("model", Aihubmix.JString "plain");
                            ("max_output", Aihubmix.JNumber 4096)]) = Normal info
    /\ Aihubmix.maxTokens info = Aihubmix.JNumber 4096
    /\ Aihubmix.for_of String_trim
         ([entry_plain; entry_vision]
            ++ [Aihubmix.JObject [("model", Aihubmix.JString "plain");
                                  ("max_output", Aihubmix.JNumber 4096)]]) ∅
       = Normal (<["plain" := info]> m1)
    /\ <["plain" := info]> m1 !! "plain" = Some info.
Proof.
  destruct (Aihubmix.for_of String_trim [entry_plain; entry_vision] ∅) as [m1|e] eqn:Hf;
    [|vm_compute in Hf; discriminate Hf].
  destruct (Aihubmix.model_info String_trim
              (Aihubmix.JObject [("model", Aihubmix.JString "plain");
                                 ("max_output", Aihubmix.JNumber 4096)]))
    as [info|e] eqn:Hi; [|vm_compute in Hi; discriminate Hi].
  exists info, m1. split; [reflexivity|]. split; [reflexivity|].
  split; [vm_compute in Hi; injection Hi as <-; reflexivity|].
  exact (last_entry_of_an_id_is_kept String_trim [entry_plain; entry_vision]
           [("model", Aihubmix.JString "plain"); ("max_output", Aihubmix.JNumber 4096)]
           "plain" info ∅ m1 Hf eq_refl ltac:(discriminate) ltac:(discriminate) Hi).
Defined.

(** A [cache_ratio] of [null]: prompt-cache support is reported. *)
Lemma prompt_cache_support_null_ratio :
  exists info,
    Aihubmix.model_info String_trim (Aihubmix.JObject entry_null_ratio) = Normal info
    /\ Aihubmix.own_property entry_null_ratio "cache_ratio" = Aihubmix.JNull
    /\ Aihubmix.supportsPromptCache info = true.
Proof.
  destruct (Aihubmix.model_info String_trim (Aihubmix.JObject entry_null_ratio))
    as [info|e] eqn:Hi; [|vm_compute in Hi; discriminate Hi].
  exists info. split; [reflexivity|]. split; [reflexivity|].
  exact (proj1 (prompt_cache_support String_trim entry_null_ratio info Hi)
           ltac:(discriminate) eq_refl).
Defined.

(** Standalone, and the API answers that it is busy. *)
Lemma invalid_answer_gives_no_models :
  getAxiosSettings WHATWG.parse env_standalone module_start
  = (Normal fetch_adapter_settings, st_after_settings)
  /\ answer_items (axios_answers answer_invalid Aihubmix.url fetch_adapter_settings) = None
  /\ exists last,
      Aihubmix.getAihubmixModels String_trim WHATWG.parse (axios_answers answer_invalid)
        env_standalone (module_start, [])
      = (Normal {| Aihubmix.models := ∅ |},
         (st_after_settings,
          ([] ++ proxy_announcement env_standalone
              ++ [Aihubmix.handler_log
                    ("[AIhubmix] Fetching models from: " ++ Aihubmix.url);
                  Aihubmix.axios_get_call Aihubmix.url fetch_adapter_settings; last])%list))
      /\ last = Aihubmix.handler_error_data "Invalid response from AIhubmix API:"
                  answer_invalid.
Proof.
  assert (H : getAxiosSettings WHATWG.parse env_standalone module_start
              = (Normal fetch_adapter_settings, st_after_settings))
    by (vm_compute; reflexivity).
  split; [exact H|]. split; [reflexivity|].
  exact (rejected_or_invalid_answer_gives_no_models String_trim WHATWG.parse
           (axios_answers answer_invalid) env_standalone module_start []
           fetch_adapter_settings st_after_settings H eq_refl).
Defined.

(** Standalone, and one entry of the answer lists its modalities in an
    array. *)
Lemma entry_with_array_modalities_gives_no_models :
  getAxiosSettings WHATWG.parse env_standalone module_start
  = (Normal fetch_adapter_settings, st_after_settings)
  /\ answer_items (axios_answers answer_broken Aihubmix.url fetch_adapter_settings)
     = Some [entry_vision; entry_modalities_array; entry_plain]
  /\ In entry_modalities_array [entry_vision; entry_modalities_array; entry_plain]
  /\ breaks_loop entry_modalities_array
  /\ exists e,
      Aihubmix.getAihubmixModels String_trim WHATWG.parse (axios_answers answer_broken)
        env_standalone (module_start, [])
      = (Normal {| Aihubmix.models := ∅ |},
         (st_after_settings,
          ([] ++ proxy_announcement env_standalone
              ++ [Aihubmix.handler_log
                    ("[AIhubmix] Fetching models from: " ++ Aihubmix.url);
                  Aihubmix.axios_get_call Aihubmix.url fetch_adapter_settings;
                  Aihubmix.handler_log "Fetched 3 AIhubmix models from API";
                  Aihubmix.handler_error "Failed to fetch AIhubmix models:" e])%list)).
Proof.
  assert (H : getAxiosSettings WHATWG.parse env_standalone module_start
              = (Normal fetch_adapter_settings, st_after_settings))
    by (vm_compute; reflexivity).
  assert (Hin : In entry_modalities_array [entry_vision; entry_modalities_array; entry_plain])
    by (right; left; reflexivity).
  assert (Hb : breaks_loop entry_modalities_array).
  { apply (breaks_modalities _ "l" "isted"); [reflexivity|].
    split; [reflexivity | discriminate]. }
  split; [exact H|]. split; [reflexivity|]. split; [exact Hin|]. split; [exact Hb|].
  exact (one_broken_entry_gives_no_models String_trim WHATWG.parse
           (axios_answers answer_broken) env_standalone module_start []
           fetch_adapter_settings st_after_settings _ _ H eq_refl Hin Hb).
Defined.

(** Standalone, and an answer with two models and a stray number. *)
Lemma answer_with_two_models :
  getAxiosSettings WHATWG.parse env_standalone module_start
  = (Normal fetch_adapter_settings, st_after_settings)
  /\ answer_items (axios_answers answer_ok Aihubmix.url fetch_adapter_settings)
     = Some [entry_vision; Aihubmix.JNumber 3; entry_plain]
  /\ (forall v, In v [entry_vision; Aihubmix.JNumber 3; entry_plain] -> ~ breaks_loop v)
  /\ exists modelsMap,
      Aihubmix.getAihubmixModels String_trim WHATWG.parse (axios_answers answer_ok)
        env_standalone (module_start, [])
      = (Normal {| Aihubmix.models := modelsMap |},
         (st_after_settings,
          ([] ++ proxy_announcement env_standalone
              ++ [Aihubmix.handler_log
                    ("[AIhubmix] Fetching models from: " ++ Aihubmix.url);
                  Aihubmix.axios_get_call Aihubmix.url fetch_adapter_settings;
                  Aihubmix.handler_log "Fetched 3 AIhubmix models from API";
                  Aihubmix.handler_log ("Fetched " ++ pretty (size modelsMap)
                                        ++ " AIhubmix models")])%list))
      /\ Aihubmix.for_of String_trim [entry_vision; Aihubmix.JNumber 3; entry_plain] ∅
         = Normal modelsMap
      /\ size modelsMap <= 3
      /\ forall id, is_Some (modelsMap !! id) ->
           id <> "" /\ id <> "__proto__"
           /\ exists ps, In (Aihubmix.JObject ps)
                           [entry_vision; Aihubmix.JNumber 3; entry_plain]
                         /\ Aihubmix.own_property ps "model" = Aihubmix.JString id.
Proof.
  assert (H : getAxiosSettings WHATWG.parse env_standalone module_start
              = (Normal fetch_adapter_settings, st_after_settings))
    by (vm_compute; reflexivity).
  assert (Hok : forall v, In v [entry_vision; Aihubmix.JNumber 3; entry_plain] ->
                          ~ breaks_loop v).
  { intros v Hin Hb.
    assert (Hf : exists e, Aihubmix.for_of String_trim
                             [entry_vision; Aihubmix.JNumber 3; entry_plain] ∅ = Throw e)
      by exact (for_of_breaks String_trim _ v ∅ Hin Hb).
    destruct Hf as [e Hf]. vm_compute in Hf. discriminate Hf. }
  split; [exact H|]. split; [reflexivity|]. split; [exact Hok|].
  exact (accepted_answer_gives_models String_trim WHATWG.parse
           (axios_answers answer_ok) env_standalone module_start []
           fetch_adapter_settings st_after_settings _ H eq_refl Hok).
Defined.

(** The run of the handler on that answer, in full. *)
Example handler_on_two_models :
  snd (snd (Aihubmix.getAihubmixModels String_trim WHATWG.parse (axios_answers answer_ok)
              env_http (module_start, [])))
  = [Aihubmix.handler_log
       "[AIhubmix] Using proxy - HTTP: http://proxy.local:3128, HTTPS: none";
     Aihubmix.handler_log
       "[AIhubmix] Fetching models from: https://aihubmix.com/call/mdl_info_platform?tag=coding";
     Aihubmix.axios_get_call "https://aihubmix.com/call/mdl_info_platform?tag=coding" ∅;
     Aihubmix.handler_log "Fetched 3 AIhubmix models from API";
     Aihubmix.handler_log "Fetched 2 AIhubmix models"].
Proof. vm_compute. reflexivity. Qed.

Example model_info_of_entry_vision :
  Aihubmix.model_info String_trim entry_vision
  = Normal {| Aihubmix.maxTokens := Aihubmix.JNumber 8192;
              Aihubmix.contextWindow := Aihubmix.JNumber 128000;
              Aihubmix.supportsImages := true;
              Aihubmix.supportsPromptCache := true;
              Aihubmix.inputPrice := Aihubmix.JNumber 1.5;
              Aihubmix.outputPrice := Aihubmix.JNumber 2;
              Aihubmix.cacheWritesPrice := Aihubmix.JNumber 0;
              Aihubmix.cacheReadsPrice := Aihubmix.JNumber 0.5;
              Aihubmix.description := Aihubmix.JString "";
              Aihubmix.thinkingConfig := Aihubmix.JObject [("budget", Aihubmix.JNumber 100)];
              Aihubmix.supportsGlobalEndpoint := Aihubmix.JUndefined;
              Aihubmix.tiers := [] |}.
Proof. vm_compute. reflexivity. Qed.

Example split_and_trim :
  List.map String_trim (Aihubmix.split "," "text, vision ,") = ["text"; "vision"; ""]
  /\ Aihubmix.split "," "" = [""].
Proof. split; reflexivity. Qed.
